(** * Budget Tracker: the ledger, the budget table and the monthly aggregation

    A shallow embedding of [budget_planner/client/src/App.jsx]: the expense
    reducer, the local-storage hook, the add / update / budget handlers, the
    derived monthly totals and the month selector, together with the
    properties the specification states about them.

    JavaScript numbers are IEEE 754 binary64 values; they are modelled by
    the Standard Library's [spec_float] at precision 53 and maximal exponent
    1024, so that comparisons with NaN, signed zeros and rounding behave as
    they do in the browser.  Strings are sequences of code units below 256. *)

From Stdlib Require Import ZArith List String Ascii Bool Lia.
From Stdlib Require Import Floats.SpecFloat.
From Stdlib Require Import Sorting.Permutation Sorting.Sorted.
From stdpp Require Import base option gmap strings.
Import ListNotations.

Local Open Scope string_scope.
Local Open Scope Z_scope.

(** ** JavaScript numbers *)

Module JS.

Definition number : Type := spec_float.

Definition prec : Z := 53.
Definition emax : Z := 1024.

Definition NaN : number := S754_nan.
Definition Infinity : number := S754_infinity false.
Definition zero : number := S754_zero false.

(** The Number whose mathematical value is the integer [z] (rounded to
    nearest, ties to even, when [z] needs more than 53 bits). *)
Definition of_Z (z : Z) : number := binary_normalize prec emax z 0 false.

(** Integers between [-2^53] and [2^53] are Numbers: [of_Z] does not round
    them ([of_Z_canon] below), and sums and differences that stay in
    the range are exact. *)
Definition safe (z : Z) : Prop := - 2 ^ 53 < z < 2 ^ 53.

(** [p * 2^k] *)
Definition shl (p : positive) (k : Z) : positive :=
  match k with Zpos d => Pos.iter xO p d | _ => p end.

(** The Number [(-1)^s * n] for a positive [n] below [2^53]: the mantissa
    is [n] shifted up to 53 bits. *)
Definition canon (s : bool) (n : positive) : number :=
  S754_finite s (shl n (53 - Zpos (digits2_pos n))) (Zpos (digits2_pos n) - 53).

Definition signed (s : bool) (p : positive) : Z := cond_Zopp s (Zpos p).

Definition add : number -> number -> number := SFadd prec emax.
Definition sub : number -> number -> number := SFsub prec emax.
Definition mul : number -> number -> number := SFmul prec emax.
Definition div : number -> number -> number := SFdiv prec emax.

(** [x < y], [x > y], [x >= y] and [x === y] on numbers. *)
Definition lt (x y : number) : bool := SFltb x y.
Definition gt (x y : number) : bool := SFltb y x.
Definition ge (x y : number) : bool := SFleb y x.
Definition le (x y : number) : bool := SFleb x y.
Definition strict_eq (x y : number) : bool := SFeqb x y.

Definition isNaN (x : number) : bool :=
  match x with S754_nan => true | _ => false end.

(** Truthiness of a number: every number but [0], [-0] and [NaN]. *)
Definition truthy_number (x : number) : bool :=
  match x with S754_zero _ | S754_nan => false | _ => true end.

(** ** Strings *)

Definition code (c : ascii) : Z := Z.of_nat (nat_of_ascii c).

(** White space and line terminators among the code units below 256:
    TAB, LF, VT, FF, CR, SP and NBSP. *)
Definition isWhiteSpace (c : ascii) : bool :=
  let n := code c in
  (n =? 9) || (n =? 10) || (n =? 11) || (n =? 12) || (n =? 13)
  || (n =? 32) || (n =? 160).

Fixpoint trimStart (s : string) : string :=
  match s with
  | EmptyString => EmptyString
  | String c s' => if isWhiteSpace c then trimStart s' else s
  end.

Fixpoint trimEnd (s : string) : string :=
  match s with
  | EmptyString => EmptyString
  | String c s' =>
      match trimEnd s' with
      | EmptyString => if isWhiteSpace c then EmptyString else String c EmptyString
      | t => String c t
      end
  end.

(** [String.prototype.trim]. *)
Definition trim (s : string) : string := trimEnd (trimStart s).

(** Truthiness of a string: every string but the empty one. *)
Definition truthy_string (s : string) : bool :=
  match s with EmptyString => false | _ => true end.

(** ** parseFloat

    The built-in skips leading white space, takes the longest prefix that
    is a [StrDecimalLiteral] (an optional sign followed by [Infinity] or by
    digits with an optional fraction and an optional exponent) and returns
    the Number nearest to its value; it returns NaN when no prefix
    qualifies.  Whatever follows the prefix is ignored. *)

Definition digit_of (c : ascii) : option Z :=
  let n := code c in
  if (48 <=? n) && (n <=? 57) then Some (n - 48) else None.

(** Reads the longest run of decimal digits in front of [s], continuing the
    decimal numeral [acc]; returns the numeral, the number of digits read
    and the unread rest. *)
Fixpoint readDigits (s : string) (acc : Z) (cnt : Z) : Z * Z * string :=
  match s with
  | EmptyString => (acc, cnt, s)
  | String c s' =>
      match digit_of c with
      | Some d => readDigits s' (10 * acc + d) (cnt + 1)
      | None => (acc, cnt, s)
      end
  end.

(** The optional [ExponentPart]: [e] or [E], an optional sign, at least one
    digit.  Without a digit the exponent is not part of the prefix. *)
Definition readExponent (s : string) : Z :=
  match s with
  | String c s' =>
      if (code c =? 101) || (code c =? 69) then
        let '(neg, s'') :=
          match s' with
          | String "-" r => (true, r)
          | String "+" r => (false, r)
          | _ => (false, s')
          end in
        let '(ex, n, _) := readDigits s'' 0 0 in
        if 0 <? n then (if neg then - ex else ex) else 0
      else 0
  | EmptyString => 0
  end.

(** The Number nearest to [(-1)^sign * m * 10^e10]. *)
Definition decimal_to_number (sign : bool) (m e10 : Z) : number :=
  match m with
  | Zpos p =>
      if 0 <=? e10
      then binary_normalize prec emax
             (if sign then - (m * 10 ^ e10) else m * 10 ^ e10) 0 false
      else div (S754_finite sign p 0)
               (S754_finite false (Z.to_pos (10 ^ (- e10))) 0)
  | _ => S754_zero sign
  end.

Definition parseUnsigned (sign : bool) (s : string) : number :=
  if String.prefix "Infinity" s then S754_infinity sign
  else
    let '(ip, ni, r1) := readDigits s 0 0 in
    match r1 with
    | String "." r1' =>
        let '(m, nf, r2) := readDigits r1' ip 0 in
        if (0 <? ni) || (0 <? nf)
        then decimal_to_number sign m (readExponent r2 - nf)
        else NaN
    | _ =>
        if 0 <? ni
        then decimal_to_number sign ip (readExponent r1)
        else NaN
    end.

Definition parseFloat (s : string) : number :=
  match trimStart s with
  | String "-" r => parseUnsigned true r
  | String "+" r => parseUnsigned false r
  | t => parseUnsigned false t
  end.

(** *** Shapes of amount strings *)






(** A Number that is not NaN and carries the sign [s]. *)
Definition hasSign (s : bool) (x : number) : Prop :=
  match x with
  | S754_zero s' | S754_infinity s' | S754_finite s' _ _ => s' = s
  | S754_nan => False
  end.

End JS.

(** ** The host's Date

    [Date.now()], [new Date().toISOString()], [new Date(s)], [getMonth] and
    [getFullYear] are built-ins whose results depend on the host (clock
    readings are inputs; month and year are taken in the local time zone).
    The component is modelled over any host; [utcHost] below is one. *)

Record DateHost := {
  (** [new Date(t).toISOString()] for a time value [t] (ms since the epoch) *)
  toISOString : Z -> string;
  (** the time value of [new Date(s)], [None] for an Invalid Date *)
  parseDate : string -> option Z;
  (** [getMonth()] and [getFullYear()] of a valid Date, in local time *)
  getMonth : Z -> Z;
  getFullYear : Z -> Z
}.

(** ** Transactions *)

Module Expense.

Record t := mk {
  id : JS.number;
  description : string;
  amount : JS.number;
  category : string;
  type : string;
  date : string;
  updatedAt : option string   (* [None]: the property is absent *)
}.

(** An object holding any subset of a transaction's properties, as the
    [updates] of an UPDATE_EXPENSE action. *)
Record updates := mkUpdates {
  u_id : option JS.number;
  u_description : option string;
  u_amount : option JS.number;
  u_category : option string;
  u_type : option string;
  u_date : option string;
  u_updatedAt : option string
}.

(** [{ ...expense, ...updates }]: every property present in [updates]
    overrides the one of [expense]. *)
Definition spread (e : t) (u : updates) : t :=
  {| id := default (id e) (u_id u);
     description := default (description e) (u_description u);
     amount := default (amount e) (u_amount u);
     category := default (category e) (u_category u);
     type := default (type e) (u_type u);
     date := default (date e) (u_date u);
     updatedAt := match u_updatedAt u with
                  | Some s => Some s
                  | None => updatedAt e
                  end |}.

(** The properties by name, for statements that range over all of them. *)
Inductive field :=
  | Fid | Fdescription | Famount | Fcategory | Ftype | Fdate | FupdatedAt.

Inductive value :=
  | VNumber (n : JS.number)
  | VString (s : string)
  | VUndefined.

(** [expense[f]] *)
Definition get (e : t) (f : field) : value :=
  match f with
  | Fid => VNumber (id e)
  | Fdescription => VString (description e)
  | Famount => VNumber (amount e)
  | Fcategory => VString (category e)
  | Ftype => VString (type e)
  | Fdate => VString (date e)
  | FupdatedAt => match updatedAt e with Some s => VString s | None => VUndefined end
  end.

(** [updates[f]] where [updates] has the property [f], [None] elsewhere. *)
Definition given (u : updates) (f : field) : option value :=
  match f with
  | Fid => VNumber <$> u_id u
  | Fdescription => VString <$> u_description u
  | Famount => VNumber <$> u_amount u
  | Fcategory => VString <$> u_category u
  | Ftype => VString <$> u_type u
  | Fdate => VString <$> u_date u
  | FupdatedAt => VString <$> u_updatedAt u
  end.

End Expense.

Abbreviation expense := Expense.t.

(** ** The reducer (App.jsx, lines 5-20) *)

Inductive action :=
  | ADD_EXPENSE (payload : expense)
  | DELETE_EXPENSE (payload : JS.number)
  | UPDATE_EXPENSE (id : JS.number) (updates : Expense.updates)
  | INIT (payload : list expense).      (* dispatched, but no case handles it *)

Definition expenseReducer (state : list expense) (a : action) : list expense :=
  match a with
  | ADD_EXPENSE payload => state ++ [payload]
  | DELETE_EXPENSE payload =>
      List.filter (fun e => negb (JS.strict_eq (Expense.id e) payload)) state
  | UPDATE_EXPENSE id updates =>
      List.map (fun e => if JS.strict_eq (Expense.id e) id
                         then Expense.spread e updates
                         else e) state
  | INIT _ => state
  end.

(** ** Exceptions and the local-storage hook (App.jsx, lines 23-45) *)

Inductive outcome (A : Type) :=
  | Returns (a : A)
  | Throws (error : string).
Arguments Returns {A} a.
Arguments Throws {A} error.

Definition bind {A B} (m : outcome A) (k : A -> outcome B) : outcome B :=
  match m with
  | Returns a => k a
  | Throws e => Throws e
  end.

Notation "'let*' x ':=' m 'in' k" := (bind m (fun x => k))
  (at level 10, x name, m at level 100, k at level 200).

(** [try { body } catch (error) { handler }] *)
Definition try_catch {A} (body : outcome A) (handler : string -> outcome A)
  : outcome A :=
  match body with
  | Returns a => Returns a
  | Throws e => handler e
  end.

(** What the browser offers the hook: [window.localStorage.getItem]
    ([None] is [null]; it throws where storage is unavailable) and
    [JSON.parse] at the type of the stored state. *)
Record Persistence (A : Type) := {
  getItem : string -> outcome (option string);
  JSON_parse : string -> outcome A
}.
Arguments getItem {A} _ _.
Arguments JSON_parse {A} _ _.

(** The lazy initializer of [storedValue]; the second component is what
    [console.error] received. *)
Definition useLocalStorage {A} (p : Persistence A) (key : string)
    (initialValue : A) : outcome A * list string :=
  let body :=
    let* item := getItem p key in
    match item with
    | Some i => if JS.truthy_string i then JSON_parse p i else Returns initialValue
    | None => Returns initialValue
    end in
  (try_catch body (fun _ => Returns initialValue),
   match body with Throws error => [error] | Returns _ => [] end).

(** ** The component's state (App.jsx, lines 49-71) *)

Record State := mkState {
  expenses : list expense;
  description : string;
  amount : string;
  category : string;
  type : string;
  editingExpenseId : option JS.number;     (* [None] is [null] *)
  showAddExpense : bool;
  isLoading : bool;
  currentMonth : JS.number;
  currentYear : JS.number;
  budgets : gmap string JS.number;
  showEditBudget : bool
}.

Definition defaultBudgets : gmap string JS.number :=
  list_to_map
    [ ("food", JS.of_Z 300); ("housing", JS.of_Z 800);
      ("transportation", JS.of_Z 150); ("utilities", JS.of_Z 200);
      ("entertainment", JS.of_Z 100); ("healthcare", JS.of_Z 150);
      ("shopping", JS.of_Z 200); ("other", JS.of_Z 100) ].

Definition set_expenses (st : State) (l : list expense) : State :=
  mkState l (description st) (amount st) (category st) (type st)
    (editingExpenseId st) (showAddExpense st) (isLoading st)
    (currentMonth st) (currentYear st) (budgets st) (showEditBudget st).

Definition set_budgets (st : State) (b : gmap string JS.number) : State :=
  mkState (expenses st) (description st) (amount st) (category st) (type st)
    (editingExpenseId st) (showAddExpense st) (isLoading st)
    (currentMonth st) (currentYear st) b (showEditBudget st).

Definition set_selection (st : State) (m y : JS.number) : State :=
  mkState (expenses st) (description st) (amount st) (category st) (type st)
    (editingExpenseId st) (showAddExpense st) (isLoading st)
    m y (budgets st) (showEditBudget st).

(** The form's setters (lines 52-55). *)
Definition setDescription (st : State) (v : string) : State :=
  mkState (expenses st) v (amount st) (category st) (type st)
    (editingExpenseId st) (showAddExpense st) (isLoading st)
    (currentMonth st) (currentYear st) (budgets st) (showEditBudget st).

Definition setAmount (st : State) (v : string) : State :=
  mkState (expenses st) (description st) v (category st) (type st)
    (editingExpenseId st) (showAddExpense st) (isLoading st)
    (currentMonth st) (currentYear st) (budgets st) (showEditBudget st).

Definition setCategory (st : State) (v : string) : State :=
  mkState (expenses st) (description st) (amount st) v (type st)
    (editingExpenseId st) (showAddExpense st) (isLoading st)
    (currentMonth st) (currentYear st) (budgets st) (showEditBudget st).

Definition setType (st : State) (v : string) : State :=
  mkState (expenses st) (description st) (amount st) (category st) v
    (editingExpenseId st) (showAddExpense st) (isLoading st)
    (currentMonth st) (currentYear st) (budgets st) (showEditBudget st).

(** [dispatch(action)]: the next render sees the reducer's result. *)
Definition dispatch (st : State) (a : action) : State :=
  set_expenses st (expenseReducer (expenses st) a).

Section Component.

Variable host : DateHost.

(** The first render at clock reading [today]. *)
Definition initialState (today : Z) : State :=
  {| expenses := [];
     description := "";
     amount := "";
     category := "food";
     type := "expense";
     editingExpenseId := None;
     showAddExpense := false;
     isLoading := true;
     currentMonth := JS.of_Z (getMonth host today);
     currentYear := JS.of_Z (getFullYear host today);
     budgets := defaultBudgets;
     showEditBudget := false |}.

(** The two hooks of lines 77-78 and, once the timer of lines 81-86 fires,
    the state they leave.  Both initializers catch what they throw, so the
    values are always there. *)
Definition savedExpenses (pe : Persistence (list expense)) : outcome (list expense) :=
  fst (useLocalStorage pe "expenses" []).

Definition savedBudgets (st : State) (pb : Persistence (gmap string JS.number))
  : outcome (gmap string JS.number) :=
  fst (useLocalStorage pb "budgets" (budgets st)).

Definition load (pe : Persistence (list expense))
    (pb : Persistence (gmap string JS.number)) (today : Z) : outcome State :=
  let st := initialState today in
  let* se := savedExpenses pe in
  let* sb := savedBudgets st pb in
  let st1 := dispatch st (INIT se) in
  let st2 := set_budgets st1 sb in
  Returns (mkState (expenses st2) (description st2) (amount st2) (category st2)
             (type st2) (editingExpenseId st2) (showAddExpense st2) false
             (currentMonth st2) (currentYear st2) (budgets st2)
             (showEditBudget st2)).

(** The guard shared by the add and the update handler:
    [description.trim() && amount && !isNaN(parseFloat(amount))]. *)
Definition formIsValid (st : State) : bool :=
  JS.truthy_string (JS.trim (description st))
  && JS.truthy_string (amount st)
  && negb (JS.isNaN (JS.parseFloat (amount st))).

(** [handleAddExpense] (lines 103-120); [now] is what [Date.now()] returns
    and [today] the time value of [new Date()]. *)
Definition newExpenseObj (st : State) (now today : Z) : expense :=
  {| Expense.id := JS.of_Z now;
     Expense.description := description st;
     Expense.amount := JS.parseFloat (amount st);
     Expense.category := category st;
     Expense.type := type st;
     Expense.date := toISOString host today;
     Expense.updatedAt := None |}.

Definition handleAddExpense (st : State) (now today : Z) : State :=
  if formIsValid st then
    let st1 := dispatch st (ADD_EXPENSE (newExpenseObj st now today)) in
    mkState (expenses st1) "" "" (category st1) (type st1)
      (editingExpenseId st1) false (isLoading st1)
      (currentMonth st1) (currentYear st1) (budgets st1) (showEditBudget st1)
  else st.

(** [deleteExpense] (lines 122-124). *)
Definition deleteExpense (st : State) (id : JS.number) : State :=
  dispatch st (DELETE_EXPENSE id).

(** [startEditExpense] (lines 126-137); the amount shown in the form is
    [expense.amount.toString()], supplied here as [amountText]. *)
Definition startEditExpense (st : State) (e : expense) (amountText : string)
  : State :=
  mkState (expenses st) (Expense.description e) amountText
    (Expense.category e) (Expense.type e) (Some (Expense.id e)) true
    (isLoading st) (currentMonth st) (currentYear st) (budgets st)
    (showEditBudget st).

(** The [updates] object built by [updateExpense]. *)
Definition formUpdates (st : State) (today : Z) : Expense.updates :=
  {| Expense.u_id := None;
     Expense.u_description := Some (description st);
     Expense.u_amount := Some (JS.parseFloat (amount st));
     Expense.u_category := Some (category st);
     Expense.u_type := Some (type st);
     Expense.u_date := None;
     Expense.u_updatedAt := Some (toISOString host today) |}.

(** [updateExpense] (lines 139-160). *)
Definition updateExpense (st : State) (today : Z) : State :=
  match editingExpenseId st with
  | Some eid =>
      if formIsValid st && JS.truthy_number eid then
        let st1 := dispatch st (UPDATE_EXPENSE eid (formUpdates st today)) in
        mkState (expenses st1) "" "" (category st1) (type st1)
          None false (isLoading st1)
          (currentMonth st1) (currentYear st1) (budgets st1)
          (showEditBudget st1)
      else st
  | None => st
  end.

(** The record an accepted [updateExpense] leaves in place of [e]: the
    spread of [formUpdates] over [e], property by property. *)
Definition edited (st : State) (today : Z) (e : expense) : expense :=
  {| Expense.id := Expense.id e;
     Expense.description := description st;
     Expense.amount := JS.parseFloat (amount st);
     Expense.category := category st;
     Expense.type := type st;
     Expense.date := Expense.date e;
     Expense.updatedAt := Some (toISOString host today) |}.

(** [updateBudget] (lines 162-170). *)
Definition updateBudget (st : State) (cat value : string) : State :=
  let newValue := JS.parseFloat value in
  if negb (JS.isNaN newValue) && JS.ge newValue JS.zero
  then set_budgets st (<[cat := newValue]> (budgets st))
  else st.

(** ** The derived values of a render (lines 181-210) *)

(** [new Date(expense.date)] followed by [getMonth()] / [getFullYear()];
    an Invalid Date answers NaN to both. *)
Definition monthOf (d : string) : JS.number :=
  match parseDate host d with
  | Some t => JS.of_Z (getMonth host t)
  | None => JS.NaN
  end.

Definition fullYearOf (d : string) : JS.number :=
  match parseDate host d with
  | Some t => JS.of_Z (getFullYear host t)
  | None => JS.NaN
  end.

Definition inSelectedMonth (st : State) (e : expense) : bool :=
  JS.strict_eq (monthOf (Expense.date e)) (currentMonth st)
  && JS.strict_eq (fullYearOf (Expense.date e)) (currentYear st).

Definition currentMonthExpenses (st : State) : list expense :=
  List.filter (inSelectedMonth st) (expenses st).

(** [.reduce((sum, expense) => sum + expense.amount, 0)] *)
Definition sumAmounts (l : list expense) : JS.number :=
  fold_left (fun sum e => JS.add sum (Expense.amount e)) l JS.zero.

Definition totalIncome (st : State) : JS.number :=
  sumAmounts (List.filter (fun e => String.eqb (Expense.type e) "income")
                (currentMonthExpenses st)).

Definition totalExpenses (st : State) : JS.number :=
  sumAmounts (List.filter (fun e => String.eqb (Expense.type e) "expense")
                (currentMonthExpenses st)).

Definition balance (st : State) : JS.number :=
  JS.sub (totalIncome st) (totalExpenses st).

Definition categoryTotal (st : State) (cat : string) : JS.number :=
  sumAmounts
    (List.filter (fun e => String.eqb (Expense.category e) cat
                           && String.eqb (Expense.type e) "expense")
       (currentMonthExpenses st)).

(** [budgets[cat] > 0 ? (categoryTotals[cat] / budgets[cat] * 100) : 0] *)
Definition percentage (spent limit : JS.number) : JS.number :=
  if JS.gt limit JS.zero
  then JS.mul (JS.div spent limit) (JS.of_Z 100)
  else JS.zero.

(** The two objects filled by [Object.keys(budgets).forEach]. *)
Definition categoryTotals (st : State) : gmap string JS.number :=
  map_imap (fun cat _ => Some (categoryTotal st cat)) (budgets st).

Definition categoryPercentages (st : State) : gmap string JS.number :=
  map_imap (fun cat limit => Some (percentage (categoryTotal st cat) limit))
    (budgets st).

(** ** The month selector (lines 247-273) *)

Definition selection (st : State) : JS.number * JS.number :=
  (currentMonth st, currentYear st).

Definition previousMonth (st : State) : State :=
  if JS.strict_eq (currentMonth st) JS.zero
  then set_selection st (JS.of_Z 11) (JS.sub (currentYear st) (JS.of_Z 1))
  else set_selection st (JS.sub (currentMonth st) (JS.of_Z 1)) (currentYear st).

Definition nextMonth (st : State) : State :=
  if JS.strict_eq (currentMonth st) (JS.of_Z 11)
  then set_selection st JS.zero (JS.add (currentYear st) (JS.of_Z 1))
  else set_selection st (JS.add (currentMonth st) (JS.of_Z 1)) (currentYear st).

End Component.

(** ** The budget bar (lines 437-446)

    The colour class of a category's bar is the component's only use of the
    thresholds: red is over budget, orange the warning, green the rest. *)

Inductive status := OverBudget | Warning | Normal.

Definition barStatus (p : JS.number) : status :=
  if JS.gt p (JS.of_Z 100) then OverBudget
  else if JS.gt p (JS.of_Z 75) then Warning
  else Normal.


(** ** A host in UTC

    One implementation of [DateHost]: the proleptic Gregorian calendar with
    a local time zone equal to UTC.  It reads back exactly the strings that
    [toISOString] writes and takes every other string for an Invalid Date. *)

Module UTC.

Definition msPerDay : Z := 86400000.

(** Year, month (1-12) and day of the month of a day number counted from
    1970-01-01. *)
Definition civil_from_days (z : Z) : Z * Z * Z :=
  let z := z + 719468 in
  let era := z / 146097 in
  let doe := z - era * 146097 in
  let yoe := (doe - doe / 1460 + doe / 36524 - doe / 146096) / 365 in
  let doy := doe - (365 * yoe + yoe / 4 - yoe / 100) in
  let mp := (5 * doy + 2) / 153 in
  let d := doy - (153 * mp + 2) / 5 + 1 in
  let m := if mp <? 10 then mp + 3 else mp - 9 in
  (yoe + era * 400 + (if m <=? 2 then 1 else 0), m, d).

Definition days_from_civil (y m d : Z) : Z :=
  let y := if m <=? 2 then y - 1 else y in
  let era := y / 400 in
  let yoe := y - era * 400 in
  let doy := (153 * (if 2 <? m then m - 3 else m + 9) + 2) / 5 + d - 1 in
  let doe := yoe * 365 + yoe / 4 - yoe / 100 + doy in
  era * 146097 + doe - 719468.

(** The [w] low decimal digits of [n], most significant first. *)
Fixpoint pad (w : nat) (n : Z) : string :=
  match w with
  | O => ""
  | S w' =>
      String (ascii_of_nat (Z.to_nat (48 + (n / 10 ^ Z.of_nat w') mod 10)))
        (pad w' n)
  end.

Definition yearString (y : Z) : string :=
  if (0 <=? y) && (y <=? 9999) then pad 4 y
  else String.append (if y <? 0 then "-" else "+") (pad 6 (Z.abs y)).

Definition toISOString (t : Z) : string :=
  let '(y, m, d) := civil_from_days (t / msPerDay) in
  let ms := t mod msPerDay in
  String.concat ""
    [ yearString y; "-"; pad 2 m; "-"; pad 2 d; "T";
      pad 2 (ms / 3600000); ":"; pad 2 (ms / 60000 mod 60); ":";
      pad 2 (ms / 1000 mod 60); "."; pad 3 (ms mod 1000); "Z" ].

(** Exactly [w] decimal digits in front of [s]. *)
Fixpoint readFixed (w : nat) (s : string) (acc : Z) : option (Z * string) :=
  match w with
  | O => Some (acc, s)
  | S w' =>
      match s with
      | String c s' =>
          match JS.digit_of c with
          | Some d => readFixed w' s' (10 * acc + d)
          | None => None
          end
      | EmptyString => None
      end
  end.

Definition expect (c : ascii) (s : string) : option string :=
  match s with
  | String c' s' => if Ascii.eqb c c' then Some s' else None
  | EmptyString => None
  end.

Definition readYear (s : string) : option (Z * string) :=
  match s with
  | String "+" r => readFixed 6 r 0
  | String "-" r => '(y, r') ← readFixed 6 r 0; Some (- y, r')
  | _ => readFixed 4 s 0
  end.

Definition parseFields (s : string) : option Z :=
  '(y, s) ← readYear s;
  s ← expect "-" s; '(m, s) ← readFixed 2 s 0;
  s ← expect "-" s; '(d, s) ← readFixed 2 s 0;
  s ← expect "T" s; '(hh, s) ← readFixed 2 s 0;
  s ← expect ":" s; '(mm, s) ← readFixed 2 s 0;
  s ← expect ":" s; '(ss, s) ← readFixed 2 s 0;
  s ← expect "." s; '(ms, s) ← readFixed 3 s 0;
  s ← expect "Z" s;
  Some (days_from_civil y m d * msPerDay
        + hh * 3600000 + mm * 60000 + ss * 1000 + ms).

Definition parseDate (s : string) : option Z :=
  t ← parseFields s;
  if String.eqb (toISOString t) s then Some t else None.

Definition getMonth (t : Z) : Z :=
  let '(_, m, _) := civil_from_days (t / msPerDay) in m - 1.

Definition getFullYear (t : Z) : Z :=
  let '(y, _, _) := civil_from_days (t / msPerDay) in y.

End UTC.

Definition utcHost : DateHost :=
  {| toISOString := UTC.toISOString;
     parseDate := UTC.parseDate;
     getMonth := UTC.getMonth;
     getFullYear := UTC.getFullYear |}.

(** ** The specification's words, for comparison with the code *)

(** The monthly total of a kind, as the specification describes it: going
    through the ledger, the amounts of the transactions of [kind] that fall
    in the selected month are added up. *)
Fixpoint spec_total (selected : expense -> bool) (kind : string)
    (ledger : list expense) (sum : JS.number) : JS.number :=
  match ledger with
  | [] => sum
  | e :: rest =>
      spec_total selected kind rest
        (if selected e && String.eqb (Expense.type e) kind
         then JS.add sum (Expense.amount e) else sum)
  end.

(** The month filter, as the specification describes it: the date of the
    transaction, read by the host in local time, has the selected month and
    the selected year.  A date the host cannot read falls in no month. *)
Definition spec_fallsIn (host : DateHost) (month year : JS.number)
    (e : expense) : bool :=
  match parseDate host (Expense.date e) with
  | Some t =>
      JS.strict_eq (JS.of_Z (getMonth host t)) month
      && JS.strict_eq (JS.of_Z (getFullYear host t)) year
  | None => false
  end.

(** The same filter for a selection given by integers. *)
Definition spec_fallsInZ (host : DateHost) (M Y : Z) (e : expense) : bool :=
  match parseDate host (Expense.date e) with
  | Some t => (getMonth host t =? M) && (getFullYear host t =? Y)
  | None => false
  end.

(** A Number that is neither NaN nor infinite. *)
Definition isFinite (x : JS.number) : bool :=
  match x with
  | S754_zero _ | S754_finite _ _ _ => true
  | _ => false
  end.

(** ** Scenarios of the specification *)

(** The scenario of the specification: an income of 2000 and an expense of
    500 entered in March 2024, seen with March 2024 selected. *)
Definition march2024 : Z := 1710504000000.

Definition incomeAndExpense : State :=
  let st0 := initialState utcHost march2024 in
  let st1 := handleAddExpense utcHost
               (setType (setAmount (setDescription st0 "Salary") "2000") "income")
               march2024 march2024 in
  handleAddExpense utcHost
    (setType (setAmount (setDescription st1 "Groceries") "500") "expense")
    (march2024 + 1) (march2024 + 1).

(** The scenario of the specification: a single expense of 800 on housing,
    entered in March 2024 under the default limits. *)
Definition rentOnly : State :=
  handleAddExpense utcHost
    (setCategory (setAmount (setDescription (initialState utcHost march2024) "Rent") "800")
       "housing")
    march2024 march2024.

(** The rent of [rentOnly] opened in the form the day after, with every
    field of the form changed. *)
Definition editingRent : State :=
  let st := startEditExpense rentOnly
              (newExpenseObj utcHost
                 (setCategory (setAmount (setDescription (initialState utcHost march2024) "Rent") "800")
                    "housing")
                 march2024 march2024)
              "800" in
  setType (setCategory (setAmount (setDescription st "Bonus") "950") "other") "income".

(** January 2024 selected: two steps back from March. *)
Definition january2024 : State :=
  previousMonth (previousMonth (initialState utcHost march2024)).

(** A browser whose storage has no [expenses] entry and a [budgets] entry
    that is not JSON. *)
Definition corruptBudgets {A} (parse : string -> outcome A) : Persistence A :=
  {| getItem := fun key =>
       if String.eqb key "budgets" then Returns (Some "{food:") else Returns None;
     JSON_parse := fun item =>
       if String.eqb item "{food:"
       then Throws "SyntaxError: Unexpected token f in JSON at position 1"
       else parse item |}.

(** Typing a transaction into the form and pressing the button, at clock
    reading [now]. *)
Definition enter (st : State) (text value kind : string) (now : Z) : State :=
  handleAddExpense utcHost
    (setType (setAmount (setDescription st text) value) kind) now now.

(** A ledger over three months, seen with March 2024 selected: an income
    and an expense of March 2024, an expense of April 2024, an income and
    an expense of March 2023. *)
Definition threeMonths : State :=
  let st0 := initialState utcHost march2024 in
  let st1 := enter st0 "Salary" "2000" "income" march2024 in
  let st2 := enter st1 "Groceries" "500" "expense" (march2024 + 1) in
  let st3 := enter st2 "Train" "70" "expense" (march2024 + 2678400000) in
  let st4 := enter st3 "Bonus" "9000" "income" (march2024 - 31622400000) in
  enter st4 "Books" "30" "expense" (march2024 - 31622400000 + 1).

(** Two incomes and two expenses of 1e308 each, all in March 2024. *)
Definition overflowing : State :=
  let st0 := initialState utcHost march2024 in
  let st1 := enter st0 "Sale" "1e308" "income" march2024 in
  let st2 := enter st1 "Sale" "1e308" "income" (march2024 + 1) in
  let st3 := enter st2 "Loan" "1e308" "expense" (march2024 + 2) in
  enter st3 "Loan" "1e308" "expense" (march2024 + 3).

(** The two ways a persisted blob can be missing. *)
Definition absent {A} (p : Persistence A) (key : string) : Prop :=
  getItem p key = Returns None.

Definition failsToParse {A} (p : Persistence A) (key : string) : Prop :=
  exists item error,
    getItem p key = Returns (Some item) /\ JSON_parse p item = Throws error.

(** ** The rest of the component *)

(** The Cancel button (lines 378-383). *)
Definition cancel (st : State) : State :=
  mkState (expenses st) "" "" (category st) (type st) None false
    (isLoading st) (currentMonth st) (currentYear st) (budgets st)
    (showEditBudget st).

(** The button of line 389: [editingExpenseId ? updateExpense :
    handleAddExpense]. *)
Definition submit (host : DateHost) (st : State) (now today : Z) : State :=
  match editingExpenseId st with
  | Some eid =>
      if JS.truthy_number eid then updateExpense host st today
      else handleAddExpense host st now today
  | None => handleAddExpense host st now today
  end.

(** [Math.min] of two Numbers: NaN if either is, and [-0] below [+0]. *)
Definition Math_min (x y : JS.number) : JS.number :=
  if JS.isNaN x || JS.isNaN y then JS.NaN
  else if JS.lt x y then x
  else if JS.lt y x then y
  else match x, y with
       | S754_zero true, _ => x
       | _, S754_zero true => y
       | _, _ => x
       end.

(** The width of a category's bar, in percent (line 445):
    [Math.min(categoryPercentages[cat], 100)]. *)
Definition barWidth (p : JS.number) : JS.number := Math_min p (JS.of_Z 100).

(** A Number that is not NaN and not below zero: [!isNaN(x) && x >= 0]. *)
Definition nonNegative (x : JS.number) : bool :=
  negb (JS.isNaN x) && JS.ge x JS.zero.

(** *** Writing to local storage (lines 34-42)

    The store is the browser's map from keys to strings.  [setItem] writes
    or, when the browser refuses the write ([fits] is false: quota, private
    mode), throws and leaves the store as it was. *)

Record Codec (A : Type) := {
  stringify : A -> outcome string;     (* [JSON.stringify] *)
  parse : string -> outcome A          (* [JSON.parse] *)
}.
Arguments stringify {A} _ _.
Arguments parse {A} _ _.

Definition setItem (fits : string -> string -> bool)
    (store : gmap string string) (key value : string)
  : outcome (gmap string string) :=
  if fits key value then Returns (<[key := value]> store)
  else Throws "QuotaExceededError".

(** What the hook reads from a store. *)
Definition browser {A} (c : Codec A) (store : gmap string string)
  : Persistence A :=
  {| getItem := fun key => Returns (store !! key);
     JSON_parse := parse c |}.

(** [setValue]: the argument is a value or a function of the stored value.
    [setStoredValue] has run by the time [JSON.stringify] or [setItem] can
    throw, so the new stored value stands either way.  Returns the stored
    value, the store and what [console.error] received. *)
Definition setValue {A} (c : Codec A) (fits : string -> string -> bool)
    (key : string) (storedValue : A) (store : gmap string string)
    (value : A + (A -> A)) : A * gmap string string * list string :=
  let valueToStore :=
    match value with inl v => v | inr f => f storedValue end in
  match
    let* text := stringify c valueToStore in
    setItem fits store key text
  with
  | Returns store' => (valueToStore, store', [])
  | Throws error => (valueToStore, store, [error])
  end.

(** The two effects of lines 91-101, run after a render: once loading is
    over they hand the ledger and the budget table to the hooks. *)
Definition persistExpenses (c : Codec (list expense))
    (fits : string -> string -> bool) (st : State)
    (saved : list expense) (store : gmap string string)
  : list expense * gmap string string * list string :=
  if isLoading st then (saved, store, [])
  else setValue c fits "expenses" saved store (inl (expenses st)).

Definition persistBudgets (c : Codec (gmap string JS.number))
    (fits : string -> string -> bool) (st : State)
    (saved : gmap string JS.number) (store : gmap string string)
  : gmap string JS.number * gmap string string * list string :=
  if isLoading st then (saved, store, [])
  else setValue c fits "budgets" saved store (inl (budgets st)).

(** *** The list of transactions shown (lines 463-465)

    [[...currentMonthExpenses].sort((a, b) => new Date(b.date) - new
    Date(a.date))].  [Array.prototype.sort] is stable; with a comparator
    that orders the elements consistently its result is the one stable
    ordering, which insertion from the left computes.  A comparator result
    that is not above zero (zero, negative or NaN) leaves two elements in
    the order they have. *)

Section Display.

Variable host : DateHost.

(** The time value of [new Date(d)] as a Number, NaN for an Invalid Date. *)
Definition timeValue (d : string) : JS.number :=
  match parseDate host d with
  | Some t => JS.of_Z t
  | None => JS.NaN
  end.

Definition byDateDescending (a b : expense) : JS.number :=
  JS.sub (timeValue (Expense.date b)) (timeValue (Expense.date a)).

Fixpoint insertSorted (cmp : expense -> expense -> JS.number) (x : expense)
    (l : list expense) : list expense :=
  match l with
  | [] => [x]
  | y :: l' =>
      if JS.gt (cmp y x) JS.zero then x :: y :: l'
      else y :: insertSorted cmp x l'
  end.

Definition sortBy (cmp : expense -> expense -> JS.number) (l : list expense)
  : list expense :=
  fold_left (fun sorted x => insertSorted cmp x sorted) l [].

Definition displayedExpenses (st : State) : list expense :=
  sortBy byDateDescending (currentMonthExpenses host st).

(** [a] is shown above [b] only if it is not older. *)
Definition notOlder (a b : expense) : Prop :=
  exists ta tb,
    parseDate host (Expense.date a) = Some ta
    /\ parseDate host (Expense.date b) = Some tb
    /\ tb <= ta.

(** Dates that parse, to time values whose differences are exact. *)
Definition readableDate (e : expense) : Prop :=
  exists t, parseDate host (Expense.date e) = Some t /\ - 2 ^ 52 < t < 2 ^ 52.

End Display.

(** A text of white space only (the empty text included). *)
Fixpoint blank (s : string) : bool :=
  match s with
  | EmptyString => true
  | String c s' => JS.isWhiteSpace c && blank s'
  end.

(** A printable ASCII character (codes 33 to 126): white space in no
    encoding and no reading of the text. *)
Definition visible (c : ascii) : bool :=
  (33 <=? JS.code c) && (JS.code c <=? 126).

Fixpoint hasVisible (s : string) : bool :=
  match s with
  | EmptyString => false
  | String c s' => visible c || hasVisible s'
  end.

(** *** Sequences of user actions *)

(** Budget edits typed one after the other: each is a category and the
    text of its input field. *)
Definition applyBudgetEdits (st : State) (edits : list (string * string))
  : State :=
  fold_left (fun st (edit : string * string) =>
               updateBudget st (fst edit) (snd edit)) edits st.

(** Clicks on the two arrows of the month selector: [true] is the forward
    arrow, [false] the backward one. *)
Definition navigate (st : State) (clicks : list bool) : State :=
  fold_left (fun st (forward : bool) =>
               if forward then nextMonth st else previousMonth st)
    clicks st.

(** [monthNames] (lines 213-215) and the header's [monthNames[currentMonth]]:
    the element whose index is the Number, [None] ([undefined]) when the
    Number is no index of the array. *)
Definition monthNames : list string :=
  [ "January"; "February"; "March"; "April"; "May"; "June";
    "July"; "August"; "September"; "October"; "November"; "December" ].

Fixpoint elementAt (names : list string) (i : Z) (index : JS.number)
  : option string :=
  match names with
  | [] => None
  | name :: rest =>
      if JS.strict_eq (JS.of_Z i) index then Some name
      else elementAt rest (i + 1) index
  end.

Definition headerMonth (st : State) : option string :=
  elementAt monthNames 0 (currentMonth st).

(** ** Scenarios for the rest of the component *)

(** A codec that writes the number of transactions and reads back that many
    copies of the rent of [rentOnly]. *)
Definition countingCodec : Codec (list expense) :=
  {| stringify := fun l => Returns (UTC.pad 3 (Z.of_nat (length l)));
     parse := fun text =>
       match UTC.readFixed 3 text 0 with
       | Some (n, "") => Returns (List.repeat
                                     (newExpenseObj utcHost
                                        (setCategory (setAmount (setDescription (initialState utcHost march2024) "Rent") "800")
                                           "housing")
                                        march2024 march2024)
                                     (Z.to_nat n))
       | _ => Throws "SyntaxError"
       end |}.

(** A codec for budget tables that knows two of them. *)
Definition twoTables : Codec (gmap string JS.number) :=
  {| stringify := fun b =>
       match b !! "food" with
       | Some limit =>
           if JS.strict_eq limit (JS.of_Z 300) then Returns "defaults"
           else Returns "frugal"
       | None => Throws "TypeError"
       end;
     parse := fun text =>
       if String.eqb text "defaults" then Returns defaultBudgets
       else if String.eqb text "frugal"
            then Returns (<["food" := JS.of_Z 50]> defaultBudgets)
            else Throws "SyntaxError" |}.

(** * Properties *)

(** ** Numbers and strings *)

Lemma SFcompare_antisym (x y : JS.number) :
  SFcompare y x = option_map CompOpp (SFcompare x y).
Proof.
  destruct x as [sx|sx| |sx mx ex], y as [sy|sy| |sy my ey]; simpl;
    try reflexivity; try (destruct sx; reflexivity);
    try (destruct sy; reflexivity);
    try (destruct sx, sy; reflexivity).
  destruct sx, sy; simpl; try reflexivity;
    rewrite (Z.compare_antisym ex ey);
    destruct (ex ?= ey) eqn:E; simpl; try reflexivity;
    pose proof (Pos.compare_cont_antisym mx my Eq) as H; simpl in H;
    rewrite <- H; destruct (Pos.compare_cont Eq mx my); reflexivity.
Qed.

(** [x === x] holds for every Number but NaN. *)
Lemma strict_eq_refl (x : JS.number) :
  JS.isNaN x = false -> JS.strict_eq x x = true.
Proof.
  destruct x as [s|s| |s m e]; try discriminate; intros _;
    unfold JS.strict_eq, SFeqb, SFcompare;
    try (destruct s; reflexivity).
  rewrite Z.compare_refl, Pos.compare_cont_refl. destruct s; reflexivity.
Qed.

Lemma lt_not_strict_eq (x y : JS.number) :
  JS.lt x y = true -> JS.strict_eq x y = false.
Proof.
  unfold JS.lt, JS.strict_eq, SFltb, SFeqb.
  destruct (SFcompare x y) as [[]|]; congruence.
Qed.

Lemma SFcompare_None (x y : JS.number) :
  SFcompare x y = None -> JS.isNaN x = true \/ JS.isNaN y = true.
Proof.
  destruct x as [sx|sx| |sx mx ex], y as [sy|sy| |sy my ey]; simpl;
    try discriminate; auto.
Qed.



Lemma strict_eq_zero_not_gt (x : JS.number) :
  JS.strict_eq x JS.zero = true -> JS.gt x JS.zero = false.
Proof. destruct x as [[]|[]| |[] m e]; cbv; congruence. Qed.

(** ** Integers as Numbers

    Rounding an integer below [2^53] in magnitude changes nothing, so that
    [+], [-] and [===] on such Numbers are those of the integers. *)

Module Exact.
Import JS.

Lemma iter_pos_iter {A} (f : A -> A) (p : positive) (x : A) :
  SpecFloat.iter_pos f p x = Pos.iter f x p.
Proof.
  revert x. induction p as [p IH|p IH|]; intros x; simpl.
  - rewrite !IH, <- !Pos.iter_swap. reflexivity.
  - rewrite !IH. reflexivity.
  - reflexivity.
Qed.

Lemma shl_succ (p : positive) (k : Z) :
  0 <= k -> shl p (Z.succ k) = xO (shl p k).
Proof.
  intros Hk. destruct k as [|d|d]; try lia; simpl.
  - reflexivity.
  - rewrite Pos.add_1_r, Pos.iter_succ. reflexivity.
Qed.

Lemma shl_value (p : positive) (k : Z) :
  0 <= k -> Zpos (shl p k) = Zpos p * 2 ^ k.
Proof.
  intros Hk. pattern k. apply natlike_ind; [| |exact Hk].
  - simpl. lia.
  - intros x Hx IH. rewrite shl_succ, Z.pow_succ_r by assumption.
    rewrite Pos2Z.inj_xO, IH. ring.
Qed.

Lemma digits_shl (p : positive) (k : Z) :
  0 <= k -> Zpos (digits2_pos (shl p k)) = Zpos (digits2_pos p) + k.
Proof.
  intros Hk. pattern k. apply natlike_ind; [| |exact Hk].
  - rewrite Z.add_0_r. reflexivity.
  - intros x Hx IH. rewrite shl_succ by assumption. simpl digits2_pos.
    rewrite Pos2Z.inj_succ, IH. lia.
Qed.

Lemma shr_shl (N : positive) (t : positive) :
  SpecFloat.iter_pos shr_1 t (Build_shr_record (Zpos (shl N (Zpos t))) false false)
  = Build_shr_record (Zpos N) false false.
Proof.
  rewrite iter_pos_iter. simpl.
  induction t as [|t IH] using Pos.peano_ind.
  - reflexivity.
  - rewrite Pos.iter_succ at 1. rewrite <- Pos.iter_swap.
    rewrite Pos.iter_succ. simpl. exact IH.
Qed.

Lemma shr_fexp_exact (N : positive) (e t : Z) :
  Zpos (digits2_pos N) = 53 -> -1074 <= e -> 0 <= t ->
  shr_fexp prec emax (Zpos (shl N t)) (e - t) loc_Exact
  = (Build_shr_record (Zpos N) false false, e).
Proof.
  intros HN He Ht. unfold shr_fexp.
  assert (Hf : fexp prec emax (Zdigits2 (Zpos (shl N t)) + (e - t)) - (e - t) = t).
  { unfold fexp, emin, Zdigits2, prec, emax. rewrite digits_shl, HN by assumption. lia. }
  rewrite Hf. destruct t as [|t|t]; try lia.
  - simpl. f_equal. lia.
  - unfold shr, shr_record_of_loc. rewrite shr_shl. f_equal. lia.
Qed.

Lemma binary_round_aux_exact (s : bool) (N : positive) (e t : Z) :
  Zpos (digits2_pos N) = 53 -> -1074 <= e <= 971 -> 0 <= t ->
  binary_round_aux prec emax s (Zpos (shl N t)) (e - t) loc_Exact
  = S754_finite s N e.
Proof.
  intros HN He Ht. unfold binary_round_aux.
  rewrite shr_fexp_exact by lia. simpl.
  pose proof (shr_fexp_exact N e 0 HN (proj1 He) (Z.le_refl 0)) as H0.
  simpl in H0. rewrite Z.sub_0_r in H0. rewrite H0. simpl.
  match goal with |- context [Z.leb e ?b] =>
    replace (Z.leb e b) with true
      by (symmetry; apply Z.leb_le; unfold emax, prec; lia)
  end.
  reflexivity.
Qed.

Lemma shl_shl (p : positive) (a b : Z) :
  0 <= a -> 0 <= b -> shl (shl p a) b = shl p (a + b).
Proof.
  intros Ha Hb. apply Pos2Z.inj. rewrite !shl_value by lia.
  rewrite Z.pow_add_r by lia. ring.
Qed.

Lemma binary_round_exact (s : bool) (n : positive) (k : Z) :
  Zpos (digits2_pos n) <= 53 -> 0 <= k <= 1000 ->
  binary_round prec emax s (shl n k) (- k) = canon s n.
Proof.
  intros Hn Hk. unfold binary_round, canon.
  set (d := Zpos (digits2_pos n)) in *.
  assert (Hd : 1 <= d) by (unfold d; lia).
  assert (Hf : fexp prec emax (Zpos (digits2_pos (shl n k)) + - k) = d - 53).
  { rewrite digits_shl by lia. fold d. unfold fexp, emin, prec, emax. lia. }
  rewrite Hf. unfold shl_align.
  assert (HN : Zpos (digits2_pos (shl n (53 - d))) = 53).
  { rewrite digits_shl by lia. fold d. lia. }
  destruct (d - 53 - - k) as [|t|t] eqn:Ht.
  - replace (- k) with (d - 53 - 0) by lia.
    replace (shl n k) with (shl (shl n (53 - d)) 0)
      by (rewrite shl_shl by lia; f_equal; lia).
    apply binary_round_aux_exact; lia.
  - replace (- k) with (d - 53 - Zpos t) by lia.
    replace (shl n k) with (shl (shl n (53 - d)) (Zpos t))
      by (rewrite shl_shl by lia; f_equal; lia).
    apply binary_round_aux_exact; lia.
  - change (Pos.iter xO (shl n k) t) with (shl (shl n k) (Zpos t)).
    rewrite shl_shl by lia.
    replace (k + Zpos t) with (53 - d) by lia.
    replace (d - 53) with (d - 53 - 0) at 1 by lia.
    replace (shl n (53 - d)) with (shl (shl n (53 - d)) 0) at 1 by reflexivity.
    apply binary_round_aux_exact; lia.
Qed.

Lemma digits_bounds (p : positive) :
  2 ^ (Zpos (digits2_pos p) - 1) <= Zpos p < 2 ^ Zpos (digits2_pos p).
Proof.
  induction p as [p IH|p IH|]; simpl digits2_pos.
  - rewrite Pos2Z.inj_succ.
    replace (Z.succ (Zpos (digits2_pos p)) - 1)
      with (Z.succ (Zpos (digits2_pos p) - 1)) by lia.
    rewrite !Z.pow_succ_r by lia. lia.
  - rewrite Pos2Z.inj_succ.
    replace (Z.succ (Zpos (digits2_pos p)) - 1)
      with (Z.succ (Zpos (digits2_pos p) - 1)) by lia.
    rewrite !Z.pow_succ_r by lia. lia.
  - simpl. lia.
Qed.

Lemma digits_le_53 (p : positive) :
  Zpos p < 2 ^ 53 -> Zpos (digits2_pos p) <= 53.
Proof.
  intros Hp. destruct (Z_le_gt_dec (Zpos (digits2_pos p)) 53) as [H|H]; [exact H|].
  pose proof (digits_bounds p) as [Hl _].
  assert (2 ^ 53 <= 2 ^ (Zpos (digits2_pos p) - 1))
    by (apply Z.pow_le_mono_r; lia).
  lia.
Qed.

Lemma of_Z_pos (p : positive) :
  safe (Zpos p) -> of_Z (Zpos p) = canon false p.
Proof.
  intros [_ H]. unfold of_Z, binary_normalize.
  apply (binary_round_exact false p 0); [apply digits_le_53; exact H | lia].
Qed.

Lemma of_Z_neg (p : positive) :
  safe (Zneg p) -> of_Z (Zneg p) = canon true p.
Proof.
  intros [H _]. unfold of_Z, binary_normalize.
  apply (binary_round_exact true p 0); [apply digits_le_53; lia | lia].
Qed.

Lemma normalize_exact (z k : Z) :
  safe z -> 0 <= k <= 1000 ->
  binary_normalize prec emax (z * 2 ^ k) (- k) false = of_Z z.
Proof.
  intros Hz Hk. destruct z as [|p|p].
  - reflexivity.
  - rewrite of_Z_pos by assumption.
    rewrite <- shl_value by lia. simpl.
    apply binary_round_exact; [apply digits_le_53; apply Hz | lia].
  - rewrite of_Z_neg by assumption.
    change (Zneg p) with (- Zpos p). rewrite Z.mul_opp_l.
    rewrite <- shl_value by lia. simpl.
    apply binary_round_exact; [apply digits_le_53; unfold safe in Hz; lia | lia].
Qed.

Lemma align_canon (p : positive) (ez : Z) :
  Zpos (digits2_pos p) <= 53 -> ez <= Zpos (digits2_pos p) - 53 ->
  Zpos (fst (shl_align (shl p (53 - Zpos (digits2_pos p)))
               (Zpos (digits2_pos p) - 53) ez))
  = Zpos p * 2 ^ (- ez).
Proof.
  intros Hd He. unfold shl_align.
  destruct (ez - (Zpos (digits2_pos p) - 53)) as [|t|t] eqn:Ht; try lia; cbn [fst].
  - rewrite shl_value by lia. do 2 f_equal. lia.
  - change (Pos.iter xO ?m t) with (shl m (Zpos t)).
    rewrite shl_shl, shl_value by lia. do 2 f_equal. lia.
Qed.

Lemma add_canon (sa sb : bool) (pa pb : positive) :
  safe (Zpos pa) -> safe (Zpos pb) -> safe (signed sa pa + signed sb pb) ->
  SFadd prec emax (canon sa pa) (canon sb pb)
  = of_Z (signed sa pa + signed sb pb).
Proof.
  intros Ha Hb Hs.
  pose proof (digits_le_53 pa (proj2 Ha)) as Hda.
  pose proof (digits_le_53 pb (proj2 Hb)) as Hdb.
  unfold canon, SFadd.
  set (ez := Z.min (Zpos (digits2_pos pa) - 53) (Zpos (digits2_pos pb) - 53)).
  assert (Hez : -52 <= ez <= 0) by (unfold ez; lia).
  rewrite <- (normalize_exact _ (- ez)) by (assumption || lia).
  rewrite Z.opp_involutive. f_equal.
  unfold signed, cond_Zopp.
  rewrite !align_canon by (unfold ez; lia).
  destruct sa, sb; ring.
Qed.

Lemma sub_canon (sa sb : bool) (pa pb : positive) :
  safe (Zpos pa) -> safe (Zpos pb) -> safe (signed sa pa - signed sb pb) ->
  SFsub prec emax (canon sa pa) (canon sb pb)
  = of_Z (signed sa pa - signed sb pb).
Proof.
  intros Ha Hb Hs.
  pose proof (digits_le_53 pa (proj2 Ha)) as Hda.
  pose proof (digits_le_53 pb (proj2 Hb)) as Hdb.
  unfold canon, SFsub.
  set (ez := Z.min (Zpos (digits2_pos pa) - 53) (Zpos (digits2_pos pb) - 53)).
  assert (Hez : -52 <= ez <= 0) by (unfold ez; lia).
  rewrite <- (normalize_exact _ (- ez)) by (assumption || lia).
  rewrite Z.opp_involutive. f_equal.
  unfold signed, cond_Zopp.
  rewrite !align_canon by (unfold ez; lia).
  destruct sa, sb; ring.
Qed.

Lemma of_Z_canon (z : Z) :
  safe z -> z <> 0 -> of_Z z = canon (z <? 0) (Z.to_pos (Z.abs z)).
Proof.
  intros Hz Hnz. destruct z as [|p|p]; [congruence| |].
  - apply of_Z_pos. exact Hz.
  - apply of_Z_neg. exact Hz.
Qed.

Lemma signed_abs (z : Z) : z <> 0 -> signed (z <? 0) (Z.to_pos (Z.abs z)) = z.
Proof. intros H. destruct z; [congruence | reflexivity | reflexivity]. Qed.

Lemma safe_abs (z : Z) : safe z -> z <> 0 -> safe (Zpos (Z.to_pos (Z.abs z))).
Proof. unfold safe. destruct z; simpl; lia. Qed.

Lemma add_of_Z (a b : Z) :
  safe a -> safe b -> safe (a + b) ->
  SFadd prec emax (of_Z a) (of_Z b) = of_Z (a + b).
Proof.
  intros Ha Hb Hs.
  destruct (Z.eq_dec a 0) as [->|Ha0].
  { rewrite Z.add_0_l. destruct b; [reflexivity| |];
      [rewrite of_Z_pos by assumption | rewrite of_Z_neg by assumption];
      reflexivity. }
  destruct (Z.eq_dec b 0) as [->|Hb0].
  { rewrite Z.add_0_r. destruct a; [congruence| |];
      [rewrite of_Z_pos by assumption | rewrite of_Z_neg by assumption];
      reflexivity. }
  rewrite (of_Z_canon a), (of_Z_canon b) by assumption.
  rewrite add_canon; rewrite ?signed_abs by assumption;
    auto using safe_abs.
Qed.

Lemma sub_of_Z (a b : Z) :
  safe a -> safe b -> safe (a - b) ->
  SFsub prec emax (of_Z a) (of_Z b) = of_Z (a - b).
Proof.
  intros Ha Hb Hs.
  destruct (Z.eq_dec b 0) as [->|Hb0].
  { rewrite Z.sub_0_r. destruct a; [reflexivity| |];
      [rewrite of_Z_pos by assumption | rewrite of_Z_neg by assumption];
      reflexivity. }
  destruct (Z.eq_dec a 0) as [->|Ha0].
  { destruct b as [|p|p]; [congruence| |];
      [change (0 - Zpos p) with (Zneg p) in * |
       change (0 - Zneg p) with (Zpos p) in *];
      [rewrite of_Z_pos, of_Z_neg | rewrite of_Z_neg, of_Z_pos];
      try reflexivity; assumption. }
  rewrite (of_Z_canon a), (of_Z_canon b) by assumption.
  rewrite sub_canon; rewrite ?signed_abs by assumption;
    auto using safe_abs.
Qed.

Lemma SFeqb_finite (s1 s2 : bool) (m1 m2 : positive) (e1 e2 : Z) :
  SFeqb (S754_finite s1 m1 e1) (S754_finite s2 m2 e2)
  = Bool.eqb s1 s2 && (e1 =? e2) && (m1 =? m2)%positive.
Proof.
  unfold SFeqb, SFcompare.
  change (Pos.compare_cont Eq m1 m2) with (m1 ?= m2)%positive.
  rewrite Z.eqb_compare, Pos.eqb_compare.
  destruct s1, s2; simpl; try reflexivity;
    destruct (e1 ?= e2); simpl; try reflexivity;
    destruct (m1 ?= m2)%positive; reflexivity.
Qed.

Lemma shl_inj (p q : positive) (k : Z) : 0 <= k -> shl p k = shl q k -> p = q.
Proof.
  intros Hk H. apply (f_equal Zpos) in H. rewrite !shl_value in H by assumption.
  apply Pos2Z.inj. apply Z.mul_reg_r in H; [exact H|].
  apply Z.pow_nonzero; lia.
Qed.

Lemma SFeqb_canon (sa sb : bool) (pa pb : positive) :
  Zpos (digits2_pos pa) <= 53 -> Zpos (digits2_pos pb) <= 53 ->
  SFeqb (canon sa pa) (canon sb pb) = (signed sa pa =? signed sb pb).
Proof.
  intros Ha Hb. unfold canon. rewrite SFeqb_finite.
  destruct (signed sa pa =? signed sb pb) eqn:E.
  - apply Z.eqb_eq in E.
    assert (sa = sb /\ pa = pb) as [-> ->].
    { unfold signed, cond_Zopp in E. destruct sa, sb; split; congruence || lia. }
    rewrite Bool.eqb_reflx, Z.eqb_refl, Pos.eqb_refl. reflexivity.
  - apply Z.eqb_neq in E.
    destruct (Bool.eqb sa sb) eqn:Es; [|reflexivity].
    apply Bool.eqb_prop in Es. subst sb.
    destruct (_ =? _) eqn:Ee; [|reflexivity].
    apply Z.eqb_eq in Ee.
    destruct (Pos.eqb _ _) eqn:Em; [|reflexivity].
    apply Pos.eqb_eq in Em.
    assert (Hd : Zpos (digits2_pos pa) = Zpos (digits2_pos pb)) by lia.
    rewrite Hd in Em. apply shl_inj in Em; [|lia].
    subst pb. congruence.
Qed.

Lemma strict_eq_of_Z (a b : Z) :
  safe a -> safe b -> SFeqb (of_Z a) (of_Z b) = (a =? b).
Proof.
  intros Ha Hb.
  destruct (Z.eq_dec a 0) as [->|Ha0]; [|destruct (Z.eq_dec b 0) as [->|Hb0]].
  - destruct b as [|p|p]; [reflexivity| |];
      [rewrite of_Z_pos by assumption | rewrite of_Z_neg by assumption];
      reflexivity.
  - destruct a as [|p|p]; [congruence| |];
      [rewrite of_Z_pos by assumption | rewrite of_Z_neg by assumption];
      reflexivity.
  - rewrite (of_Z_canon a), (of_Z_canon b) by assumption.
    rewrite SFeqb_canon, !signed_abs by
      (assumption || (apply digits_le_53; apply safe_abs; assumption)).
    reflexivity.
Qed.

End Exact.

(** ** What [parseFloat] makes of digits followed by other text *)

Module Parse.
Import JS.











Lemma shr_1_nonneg (mrs : shr_record) : 0 <= shr_m mrs -> 0 <= shr_m (shr_1 mrs).
Proof.
  destruct mrs as [m r s]. simpl.
  destruct m as [|[p|p|]|[p|p|]]; simpl; lia.
Qed.

Lemma iter_shr_1_nonneg (p : positive) (mrs : shr_record) :
  0 <= shr_m mrs -> 0 <= shr_m (SpecFloat.iter_pos shr_1 p mrs).
Proof.
  revert mrs. induction p as [p IH|p IH|]; intros mrs H; simpl;
    auto using shr_1_nonneg.
Qed.

Lemma shr_fexp_nonneg (m e : Z) (l : location) :
  0 <= m -> 0 <= shr_m (fst (shr_fexp prec emax m e l)).
Proof.
  intros Hm. unfold shr_fexp, shr.
  assert (H0 : 0 <= shr_m (shr_record_of_loc m l))
    by (destruct l as [|[]]; exact Hm).
  destruct (_ - e); simpl; auto using iter_shr_1_nonneg.
Qed.

Lemma round_nearest_even_nonneg (m : Z) (l : location) :
  0 <= m -> 0 <= round_nearest_even m l.
Proof.
  intros Hm. unfold round_nearest_even.
  destruct l as [|[]]; try destruct (Z.even m); lia.
Qed.

Lemma binary_round_aux_sign (s : bool) (m e : Z) (l : location) :
  0 <= m -> hasSign s (binary_round_aux prec emax s m e l).
Proof.
  intros Hm. unfold binary_round_aux.
  pose proof (shr_fexp_nonneg m e l Hm) as H1.
  destruct (shr_fexp prec emax m e l) as [mrs' e']. simpl in H1.
  pose proof (shr_fexp_nonneg _ e' loc_Exact
                (round_nearest_even_nonneg _ (loc_of_shr_record mrs') H1)) as H2.
  destruct (shr_fexp prec emax _ e' loc_Exact) as [mrs'' e'']. simpl in H2.
  destruct (shr_m mrs'') as [|p|p]; simpl; try reflexivity; [|lia].
  destruct (e'' <=? _); reflexivity.
Qed.


Lemma hasSign_false (x : number) :
  hasSign false x -> isNaN x = false /\ ge x zero = true.
Proof.
  destruct x as [s|s| |s m e]; simpl; intros H; try contradiction;
    subst; split; reflexivity.
Qed.



End Parse.

Lemma truthy_string_spec (s : string) :
  JS.truthy_string s = true <-> s <> "".
Proof. destruct s; simpl; split; congruence. Qed.

Lemma parseFloat_empty : JS.parseFloat "" = JS.NaN.
Proof. reflexivity. Qed.

(** A string that parses to a number is not the empty string, so the
    truthiness test on [amount] adds nothing to the guard. *)
Lemma parses_truthy (s : string) :
  JS.isNaN (JS.parseFloat s) = false -> JS.truthy_string s = true.
Proof. destruct s; [discriminate | reflexivity]. Qed.

(** The models of the built-ins on inputs whose results are known. *)

Example parseFloat_tenth :
  JS.parseFloat "0.1" = S754_finite false 7205759403792794 (-56).
Proof. vm_compute. reflexivity. Qed.

Example parseFloat_signs_and_exponents :
  JS.parseFloat "  -5.50e1x" = JS.of_Z (-55)
  /\ JS.parseFloat ".5" = JS.div (JS.of_Z 1) (JS.of_Z 2)
  /\ JS.parseFloat "5." = JS.of_Z 5
  /\ JS.parseFloat "1e" = JS.of_Z 1
  /\ JS.parseFloat "1e23" = S754_finite false 5960464477539062 24
  /\ JS.parseFloat "5e-324" = S754_finite false 1 (-1074)
  /\ JS.parseFloat "1e400" = JS.Infinity
  /\ JS.parseFloat "-0" = S754_zero true
  /\ JS.parseFloat "." = JS.NaN
  /\ JS.parseFloat "-Infinityx" = S754_infinity true.
Proof. repeat split; vm_compute; reflexivity. Qed.

Example trim_both_ends : JS.trim "  a b  " = "a b" /\ JS.trim "   " = "".
Proof. split; reflexivity. Qed.

Example toISOString_samples :
  UTC.toISOString 0 = "1970-01-01T00:00:00.000Z"
  /\ UTC.toISOString (-1) = "1969-12-31T23:59:59.999Z"
  /\ UTC.toISOString 951782400123 = "2000-02-29T00:00:00.123Z"
  /\ UTC.toISOString 1710504000000 = "2024-03-15T12:00:00.000Z"
  /\ UTC.parseDate "2024-03-15T12:00:00.000Z" = Some 1710504000000
  /\ UTC.toISOString 8640000000000000 = "+275760-09-13T00:00:00.000Z"
  /\ (UTC.getMonth 1710504000000, UTC.getFullYear 1710504000000) = (2, 2024).
Proof. repeat split; vm_compute; reflexivity. Qed.

(** ** The guard of the add and update handlers *)

Lemma formIsValid_spec (st : State) :
  formIsValid st = true <->
  JS.trim (description st) <> "" /\ JS.isNaN (JS.parseFloat (amount st)) = false.
Proof.
  unfold formIsValid.
  rewrite !andb_true_iff, negb_true_iff, truthy_string_spec.
  split.
  - intros [[H _] H']. auto.
  - intros [H H']. auto using parses_truthy.
Qed.

Section Handlers.

Variable host : DateHost.

Lemma handleAddExpense_valid (st : State) (now today : Z) :
  formIsValid st = true ->
  expenses (handleAddExpense host st now today)
  = (expenses st ++ [newExpenseObj host st now today])%list.
Proof. unfold handleAddExpense. intros ->. reflexivity. Qed.

Lemma handleAddExpense_invalid (st : State) (now today : Z) :
  formIsValid st = false -> handleAddExpense host st now today = st.
Proof. unfold handleAddExpense. intros ->. reflexivity. Qed.

Lemma updateExpense_valid (st : State) (today : Z) (eid : JS.number) :
  editingExpenseId st = Some eid ->
  formIsValid st = true ->
  JS.truthy_number eid = true ->
  expenses (updateExpense host st today)
  = List.map (fun e => if JS.strict_eq (Expense.id e) eid
                       then edited host st today e else e) (expenses st).
Proof.
  unfold updateExpense. intros -> -> ->. reflexivity.
Qed.

Lemma updateExpense_invalid (st : State) (today : Z) :
  formIsValid st = false -> updateExpense host st today = st.
Proof.
  unfold updateExpense. intros ->. destruct (editingExpenseId st); reflexivity.
Qed.

End Handlers.

(** ** Adding a transaction *)

(** The guard decides alone: an accepted form appends exactly one
    transaction, a rejected one leaves the whole state as it was. *)
Lemma handleAddExpense_appends_iff (host : DateHost) (st : State) (now today : Z) :
  (formIsValid st = true /\
   expenses (handleAddExpense host st now today)
   = (expenses st ++ [newExpenseObj host st now today])%list)
  \/ (formIsValid st = false /\ handleAddExpense host st now today = st).
Proof.
  destruct (formIsValid st) eqn:E.
  - left. auto using handleAddExpense_valid.
  - right. auto using handleAddExpense_invalid.
Qed.

(** The scenario of the specification: an empty (or blank) description, or
    the amount [abc], leaves the state as it was. *)
Lemma add_rejects_blank_or_unparseable (host : DateHost) (st : State)
    (now today : Z) :
  (JS.trim (description st) = "" \/ amount st = "abc") ->
  handleAddExpense host st now today = st.
Proof.
  intros H. apply handleAddExpense_invalid.
  destruct (formIsValid st) eqn:E; [|reflexivity].
  apply formIsValid_spec in E as [Hd Ha].
  destruct H as [H|H]; [congruence|]. rewrite H in Ha. discriminate.
Qed.

(** C1 (the code departs from the claim).  A description that is not blank
    together with the amount string [-5] passes the guard of
    [handleAddExpense]: the amount parses to a number below zero, and the
    transaction is appended with that negative amount.  The guard tests
    that the amount parses, not its sign; [updateBudget] tests both. *)
Theorem add_accepts_negative_amount (host : DateHost) (st : State) (now today : Z) :
  let st' := setAmount (setDescription st "Refund") "-5" in
  JS.trim (description st') = "Refund"
  /\ JS.lt (JS.parseFloat (amount st')) JS.zero = true
  /\ expenses (handleAddExpense host st' now today)
     = (expenses st ++ [newExpenseObj host st' now today])%list
  /\ Expense.amount (newExpenseObj host st' now today) = JS.of_Z (-5)
  /\ updateBudget st "food" "-5" = st.
Proof.
  cbv zeta. repeat split; try reflexivity.
Qed.

(** C2, as stated, fails: two accepted adds that read the same value off
    the clock give their transactions the same id. *)
Lemma add_same_clock_reading_collides :
  let st0 := setAmount (setDescription (initialState utcHost 1710504000000) "Rent") "800" in
  let st1 := handleAddExpense utcHost st0 1710504000000 1710504000000 in
  let st2 := setAmount (setDescription st1 "Food") "12" in
  formIsValid st2 = true
  /\ exists old new,
       In old (expenses st2)
       /\ expenses (handleAddExpense utcHost st2 1710504000000 1710504000001)
          = (expenses st2 ++ [new])%list
       /\ JS.strict_eq (Expense.id old) (Expense.id new) = true.
Proof.
  cbv zeta. split; [reflexivity|].
  eexists _, _. split; [left; reflexivity|].
  split; reflexivity.
Qed.

(** C2 (amended).  An accepted add appends one transaction whose id is the
    value [Date.now()] returned.  That id differs from the id of every
    transaction of the ledger that was created at another clock reading,
    and also from every id that is below the new one as a Number; two
    transactions created at the same reading share their id. *)
Theorem add_id_is_clock_reading (host : DateHost) (st : State) (now today : Z) :
  formIsValid st = true ->
  JS.safe now ->
  exists new,
    expenses (handleAddExpense host st now today) = (expenses st ++ [new])%list
    /\ Expense.id new = JS.of_Z now
    /\ (forall old t, In old (expenses st) ->
          Expense.id old = JS.of_Z t -> JS.safe t -> t <> now ->
          JS.strict_eq (Expense.id old) (Expense.id new) = false)
    /\ (forall old, In old (expenses st) ->
          JS.lt (Expense.id old) (JS.of_Z now) = true ->
          JS.strict_eq (Expense.id old) (Expense.id new) = false).
Proof.
  intros Hv Hnow. exists (newExpenseObj host st now today).
  split; [auto using handleAddExpense_valid|].
  split; [reflexivity|]. split.
  - intros old t _ -> Ht Hne. simpl. unfold JS.strict_eq.
    rewrite Exact.strict_eq_of_Z by assumption. apply Z.eqb_neq, Hne.
  - intros old _ Hlt. simpl. auto using lt_not_strict_eq.
Qed.

Lemma add_id_is_clock_reading_witness :
  let st0 := setAmount (setDescription (initialState utcHost 1710504000000) "Rent") "800" in
  let st1 := handleAddExpense utcHost st0 1710504000000 1710504000000 in
  let st2 := setAmount (setDescription st1 "Food") "12" in
  exists new,
    expenses (handleAddExpense utcHost st2 1710504000001 1710504000001)
    = (expenses st2 ++ [new])%list
    /\ Expense.id new = JS.of_Z 1710504000001
    /\ forall old, In old (expenses st2) ->
         JS.strict_eq (Expense.id old) (Expense.id new) = false.
Proof.
  cbv zeta.
  match goal with |- context [handleAddExpense _ ?st ?now ?today] =>
    destruct (add_id_is_clock_reading utcHost st now today)
      as (new & Hadd & Hid & Hne & _)
  end; [reflexivity | unfold JS.safe; lia |].
  exists new. split; [exact Hadd|]. split; [exact Hid|].
  intros old Hin. apply (Hne old 1710504000000 Hin).
  - destruct Hin as [<-|[]]. reflexivity.
  - unfold JS.safe. lia.
  - lia.
Defined.

(** ** Prefix parsing of amounts *)




(** ** The monthly aggregation *)

Lemma sumAmounts_filter_filter (p q : expense -> bool) (kind : string)
    (l : list expense) (sum : JS.number) :
  (forall e, q e = String.eqb (Expense.type e) kind) ->
  fold_left (fun sum e => JS.add sum (Expense.amount e))
    (List.filter q (List.filter p l)) sum
  = spec_total p kind l sum.
Proof.
  intros Hq. revert sum.
  induction l as [|e l IH]; intros sum; simpl; [reflexivity|].
  destruct (p e) eqn:Hp; simpl.
  - rewrite Hq. destruct (String.eqb (Expense.type e) kind); simpl; apply IH.
  - apply IH.
Qed.

Lemma inSelectedMonth_spec (host : DateHost) (st : State) (e : expense) :
  inSelectedMonth host st e
  = spec_fallsIn host (currentMonth st) (currentYear st) e.
Proof.
  unfold inSelectedMonth, monthOf, fullYearOf, spec_fallsIn.
  destruct (parseDate host (Expense.date e)); reflexivity.
Qed.

Lemma spec_total_ext (p q : expense -> bool) (kind : string)
    (l : list expense) (sum : JS.number) :
  (forall e, In e l -> p e = q e) ->
  spec_total p kind l sum = spec_total q kind l sum.
Proof.
  revert sum. induction l as [|e l IH]; intros sum H; simpl; [reflexivity|].
  rewrite (H e (or_introl eq_refl)). apply IH. intros e' He'. apply H. now right.
Qed.

Lemma binary_normalize_number (z e : Z) (s : bool) :
  JS.isNaN (binary_normalize JS.prec JS.emax z e s) = false.
Proof.
  unfold binary_normalize. destruct z as [|p|p]; [reflexivity| |];
    unfold binary_round; destruct (shl_align _ _ _) as [mz ez];
    match goal with |- JS.isNaN (binary_round_aux _ _ ?s ?m ?e ?l) = _ =>
      pose proof (Parse.binary_round_aux_sign s m e l) as H
    end;
    (destruct (binary_round_aux _ _ _ _ _ _); [reflexivity..| |reflexivity]);
    exfalso; apply H; lia.
Qed.

Lemma sub_finite_number (x y : JS.number) :
  isFinite x = true -> isFinite y = true -> JS.isNaN (JS.sub x y) = false.
Proof.
  destruct x as [sx|sx| |sx mx ex], y as [sy|sy| |sy my ey];
    try discriminate; intros _ _; unfold JS.sub, SFsub.
  - destruct sx, sy; reflexivity.
  - reflexivity.
  - reflexivity.
  - apply binary_normalize_number.
Qed.

Lemma strict_eq_self (x : JS.number) : JS.strict_eq x x = negb (JS.isNaN x).
Proof.
  destruct (JS.isNaN x) eqn:E.
  - destruct x; try discriminate. reflexivity.
  - apply strict_eq_refl, E.
Qed.

(** C5, as stated, fails as a comparison: two incomes and two expenses of
    1e308 in the selected month make both totals Infinity, the balance is
    NaN, and [balance == totalIncome - totalExpenses] is false. *)
Lemma balance_nan_at_overflow :
  length (expenses overflowing) = 4%nat
  /\ totalIncome utcHost overflowing = JS.Infinity
  /\ totalExpenses utcHost overflowing = JS.Infinity
  /\ balance utcHost overflowing = JS.NaN
  /\ JS.strict_eq (balance utcHost overflowing)
       (JS.sub (totalIncome utcHost overflowing)
          (totalExpenses utcHost overflowing)) = false.
Proof. repeat split; vm_compute; reflexivity. Qed.

(** C5 (amended).  The balance of a render is the Number [totalIncome -
    totalExpenses], where each total adds up, in ledger order, the amounts
    of the transactions of its kind whose date, read in local time, has
    the selected month and the selected year; transactions of other months
    or of the same month of another year do not count.  Compared with
    [===] the balance equals [totalIncome - totalExpenses] exactly when it
    is not NaN, which is so whenever both totals are finite. *)
Theorem balance_of_selected_month (host : DateHost) (st : State) :
  balance host st = JS.sub (totalIncome host st) (totalExpenses host st)
  /\ totalIncome host st
     = spec_total (spec_fallsIn host (currentMonth st) (currentYear st))
         "income" (expenses st) JS.zero
  /\ totalExpenses host st
     = spec_total (spec_fallsIn host (currentMonth st) (currentYear st))
         "expense" (expenses st) JS.zero
  /\ (forall M Y : Z,
        currentMonth st = JS.of_Z M -> currentYear st = JS.of_Z Y ->
        JS.safe M -> JS.safe Y ->
        (forall e t, In e (expenses st) ->
           parseDate host (Expense.date e) = Some t ->
           JS.safe (getMonth host t) /\ JS.safe (getFullYear host t)) ->
        totalIncome host st
        = spec_total (spec_fallsInZ host M Y) "income" (expenses st) JS.zero
        /\ totalExpenses host st
           = spec_total (spec_fallsInZ host M Y) "expense" (expenses st) JS.zero)
  /\ JS.strict_eq (balance host st)
       (JS.sub (totalIncome host st) (totalExpenses host st))
     = negb (JS.isNaN (balance host st))
  /\ (isFinite (totalIncome host st) = true ->
      isFinite (totalExpenses host st) = true ->
      JS.isNaN (balance host st) = false)
  /\ length (expenses threeMonths) = 5%nat
  /\ totalIncome utcHost threeMonths = JS.of_Z 2000
  /\ totalExpenses utcHost threeMonths = JS.of_Z 500
  /\ balance utcHost threeMonths = JS.of_Z 1500
  /\ balance utcHost incomeAndExpense = JS.of_Z 1500.
Proof.
  assert (Hi : forall kind,
             sumAmounts (List.filter (fun e => String.eqb (Expense.type e) kind)
                           (currentMonthExpenses host st))
             = spec_total (spec_fallsIn host (currentMonth st) (currentYear st))
                 kind (expenses st) JS.zero).
  { intros kind. unfold sumAmounts, currentMonthExpenses.
    rewrite (sumAmounts_filter_filter _ _ kind) by reflexivity.
    apply spec_total_ext. intros e _. apply inSelectedMonth_spec. }
  split; [reflexivity|].
  split; [apply Hi|]. split; [apply Hi|]. split.
  - intros M Y HM HY SM SY Hsafe.
    assert (Hz : forall kind,
               spec_total (spec_fallsIn host (currentMonth st) (currentYear st))
                 kind (expenses st) JS.zero
               = spec_total (spec_fallsInZ host M Y) kind (expenses st) JS.zero).
    { intros kind. apply spec_total_ext. intros e He.
      unfold spec_fallsIn, spec_fallsInZ. rewrite HM, HY.
      destruct (parseDate host (Expense.date e)) as [t|] eqn:Ht; [|reflexivity].
      destruct (Hsafe e t He Ht) as [S1 S2].
      unfold JS.strict_eq. rewrite !Exact.strict_eq_of_Z by assumption.
      reflexivity. }
    unfold totalIncome, totalExpenses. rewrite !Hi, !Hz. split; reflexivity.
  - split; [apply strict_eq_self|].
    split; [apply sub_finite_number|].
    repeat split; vm_compute; reflexivity.
Qed.

Lemma balance_of_selected_month_witness :
  totalIncome utcHost threeMonths
  = spec_total (spec_fallsInZ utcHost 2 2024) "income" (expenses threeMonths) JS.zero
  /\ spec_total (spec_fallsInZ utcHost 2 2024) "income" (expenses threeMonths) JS.zero
     = JS.of_Z 2000
  /\ JS.isNaN (balance utcHost threeMonths) = false.
Proof.
  destruct (balance_of_selected_month utcHost threeMonths)
    as (_ & _ & _ & Hz & _ & Hf & _).
  assert (Hb : forallb
                 (fun e => match UTC.parseDate (Expense.date e) with
                           | Some t =>
                               (- 2 ^ 53 <? UTC.getMonth t) && (UTC.getMonth t <? 2 ^ 53)
                               && (- 2 ^ 53 <? UTC.getFullYear t)
                               && (UTC.getFullYear t <? 2 ^ 53)
                           | None => true
                           end)
                 (expenses threeMonths) = true)
    by (vm_compute; reflexivity).
  assert (Hsafe : forall e t, In e (expenses threeMonths) ->
            parseDate utcHost (Expense.date e) = Some t ->
            JS.safe (getMonth utcHost t) /\ JS.safe (getFullYear utcHost t)).
  { intros e t He Ht. pose proof (proj1 (forallb_forall _ _) Hb e He) as H.
    clear Hb He Hz Hf. cbv beta in H.
    change (parseDate utcHost) with UTC.parseDate in Ht. rewrite Ht in H.
    change (getMonth utcHost t) with (UTC.getMonth t).
    change (getFullYear utcHost t) with (UTC.getFullYear t).
    rewrite !andb_true_iff, !Z.ltb_lt in H. unfold JS.safe. tauto. }
  destruct (Hz 2 2024) as [Hinc _];
    [vm_compute; reflexivity | vm_compute; reflexivity
    | unfold JS.safe; lia | unfold JS.safe; lia | exact Hsafe |].
  split; [exact Hinc|]. split; [vm_compute; reflexivity|].
  apply Hf; vm_compute; reflexivity.
Defined.

(** As a comparison by [===] the identity of C5 holds whenever the balance
    is a number; it is NaN when both totals are the same infinity. *)
Lemma balance_strict_eq (host : DateHost) (st : State) :
  JS.isNaN (balance host st) = false ->
  JS.strict_eq (balance host st)
    (JS.sub (totalIncome host st) (totalExpenses host st)) = true.
Proof. apply strict_eq_refl. Qed.

Lemma categoryPercentages_lookup (host : DateHost) (st : State) (cat : string) :
  categoryPercentages host st !! cat
  = (fun limit => percentage (categoryTotal host st cat) limit)
      <$> (budgets st !! cat).
Proof.
  unfold categoryPercentages. rewrite map_lookup_imap.
  destruct (budgets st !! cat); reflexivity.
Qed.

(** C4.  A category whose limit is zero has percentage 0 whatever was spent:
    the test [budgets[cat] > 0] fails for a zero limit, and the quotient
    [spent / limit] is formed only for a limit above zero, never for a
    zero one. *)
Theorem zero_limit_percentage (host : DateHost) (st : State) (cat : string)
    (limit : JS.number) :
  budgets st !! cat = Some limit ->
  JS.strict_eq limit JS.zero = true ->
  JS.gt limit JS.zero = false
  /\ (forall spent, percentage spent limit = JS.zero)
  /\ categoryPercentages host st !! cat = Some JS.zero
  /\ (forall spent divisor,
        (JS.gt divisor JS.zero = true
         /\ JS.strict_eq divisor JS.zero = false
         /\ percentage spent divisor
            = JS.mul (JS.div spent divisor) (JS.of_Z 100))
        \/ (JS.gt divisor JS.zero = false
            /\ percentage spent divisor = JS.zero)).
Proof.
  intros Hb Hz.
  pose proof (strict_eq_zero_not_gt limit Hz) as Hgt.
  assert (Hp : forall spent, percentage spent limit = JS.zero).
  { intros spent. unfold percentage. rewrite Hgt. reflexivity. }
  split; [exact Hgt|]. split; [exact Hp|]. split.
  - rewrite categoryPercentages_lookup, Hb. simpl. f_equal. apply Hp.
  - intros spent divisor. unfold percentage.
    destruct (JS.gt divisor JS.zero) eqn:E; [left | right; auto].
    split; [reflexivity|]. split; [|reflexivity].
    destruct (JS.strict_eq divisor JS.zero) eqn:E'; [|reflexivity].
    apply strict_eq_zero_not_gt in E'. congruence.
Qed.

Lemma zero_limit_percentage_witness :
  let st := updateBudget incomeAndExpense "food" "0" in
  categoryTotals utcHost st !! "food" = Some (JS.of_Z 500)
  /\ budgets st !! "food" = Some JS.zero
  /\ categoryPercentages utcHost st !! "food" = Some JS.zero.
Proof.
  cbv zeta.
  split; [vm_compute; reflexivity|].
  split; [vm_compute; reflexivity|].
  apply (zero_limit_percentage utcHost _ "food" JS.zero);
    vm_compute; reflexivity.
Defined.

(** ** The budget bar *)



(** ** Updating a transaction *)

Lemma lookup_map {A B} (f : A -> B) (l : list A) (i : nat) :
  List.map f l !! i = f <$> (l !! i).
Proof.
  revert i. induction l as [|a l IH]; intros [|i]; simpl; auto.
Qed.

Lemma map_id_on {A} (f : A -> A) (l : list A) :
  (forall a, In a l -> f a = a) -> List.map f l = l.
Proof.
  induction l as [|a l IH]; simpl; intros H; [reflexivity|].
  rewrite H, IH; auto.
Qed.

Lemma spread_get (e : expense) (u : Expense.updates) (f : Expense.field) :
  Expense.get (Expense.spread e u) f
  = match Expense.given u f with
    | Some v => v
    | None => Expense.get e f
    end.
Proof.
  destruct u as [[i|] [d|] [a|] [c|] [t|] [dt|] [up|]], f; reflexivity.
Qed.

(** C7.  [UPDATE_EXPENSE] keeps the ledger's length and order; a record
    whose id is the action's id takes every property present in [fields]
    from [fields] and keeps every other property; a record with another id
    is left as it is; and when no record has the id the ledger is
    unchanged. *)
Theorem update_merges_fields (state : list expense) (id : JS.number)
    (fields : Expense.updates) :
  let state' := expenseReducer state (UPDATE_EXPENSE id fields) in
  length state' = length state
  /\ (forall (i : nat) (e : expense), state !! i = Some e ->
        exists e', state' !! i = Some e'
          /\ (JS.strict_eq (Expense.id e) id = true ->
              forall f, Expense.get e' f
                        = match Expense.given fields f with
                          | Some v => v
                          | None => Expense.get e f
                          end)
          /\ (JS.strict_eq (Expense.id e) id = false -> e' = e))
  /\ ((forall e, In e state -> JS.strict_eq (Expense.id e) id = false) ->
      state' = state).
Proof.
  simpl. split; [apply length_map|]. split.
  - intros i e Hi. rewrite lookup_map, Hi. simpl.
    eexists. split; [reflexivity|].
    destruct (JS.strict_eq (Expense.id e) id); split; intros H;
      try discriminate; auto using spread_get.
  - intros H. apply map_id_on. intros e He. rewrite (H e He). reflexivity.
Qed.

Lemma update_merges_fields_witness :
  let fields := Expense.mkUpdates None (Some "Flat") None None None None None in
  let rent := newExpenseObj utcHost
                (setCategory (setAmount (setDescription (initialState utcHost march2024) "Rent") "800")
                   "housing") march2024 march2024 in
  exists e',
    expenseReducer (expenses rentOnly) (UPDATE_EXPENSE (JS.of_Z march2024) fields) !! 0%nat
    = Some e'
    /\ Expense.get e' Expense.Fdescription = Expense.VString "Flat"
    /\ Expense.get e' Expense.Famount = Expense.VNumber (JS.of_Z 800)
    /\ expenseReducer (expenses rentOnly) (UPDATE_EXPENSE (JS.of_Z 7) fields)
       = expenses rentOnly.
Proof.
  cbv zeta.
  destruct (update_merges_fields (expenses rentOnly) (JS.of_Z march2024)
              (Expense.mkUpdates None (Some "Flat") None None None None None))
    as (_ & H & _).
  destruct (H 0%nat _ eq_refl) as (e' & He' & Hm & _).
  exists e'. split; [exact He'|].
  split; [exact (Hm eq_refl Expense.Fdescription)|].
  split; [exact (Hm eq_refl Expense.Famount)|].
  apply update_merges_fields.
  intros e [<-|[]]. vm_compute. reflexivity.
Defined.

(** C6, as stated, fails: the update handler gives no value for [date],
    and the edited record keeps the date it was created with. *)
Lemma update_keeps_date :
  let today := march2024 + 86400000 in
  let fields := formUpdates utcHost editingRent today in
  exists old new,
    expenses editingRent = [old]
    /\ expenses (updateExpense utcHost editingRent today) = [new]
    /\ Expense.date new = Expense.date old
    /\ ~ (forall f, f <> Expense.Fid ->
            exists v, Expense.given fields f = Some v /\ Expense.get new f = v).
Proof.
  cbv zeta. eexists _, _.
  split; [reflexivity|]. split; [reflexivity|]. split; [reflexivity|].
  intros H. destruct (H Expense.Fdate) as (v & Hv & _); discriminate.
Qed.

(** C6 (amended).  An accepted update leaves, in place of each transaction
    whose id is the one being edited, a record with the form's description,
    the parsed amount, the form's category and kind, and [updatedAt] set to
    the time of the edit; the record keeps its id and its date.  Every
    other transaction is unchanged. *)
Theorem update_replaces_form_fields (host : DateHost) (st : State)
    (today : Z) (eid : JS.number) :
  editingExpenseId st = Some eid ->
  formIsValid st = true ->
  JS.truthy_number eid = true ->
  forall (i : nat) (e : expense), expenses st !! i = Some e ->
    expenses (updateExpense host st today) !! i
    = Some (if JS.strict_eq (Expense.id e) eid
            then {| Expense.id := Expense.id e;
                    Expense.description := description st;
                    Expense.amount := JS.parseFloat (amount st);
                    Expense.category := category st;
                    Expense.type := type st;
                    Expense.date := Expense.date e;
                    Expense.updatedAt := Some (toISOString host today) |}
            else e).
Proof.
  intros He Hv Ht i e Hi.
  rewrite (updateExpense_valid host st today eid He Hv Ht), lookup_map, Hi.
  reflexivity.
Qed.

Lemma update_replaces_form_fields_witness :
  expenses (updateExpense utcHost editingRent (march2024 + 86400000)) !! 0%nat
  = Some {| Expense.id := JS.of_Z march2024;
            Expense.description := "Bonus";
            Expense.amount := JS.of_Z 950;
            Expense.category := "other";
            Expense.type := "income";
            Expense.date := "2024-03-15T12:00:00.000Z";
            Expense.updatedAt := Some "2024-03-16T12:00:00.000Z" |}.
Proof.
  rewrite (update_replaces_form_fields utcHost editingRent _ (JS.of_Z march2024)
             eq_refl eq_refl eq_refl 0%nat _ eq_refl).
  vm_compute. reflexivity.
Defined.

(** ** Loading the persisted state *)

(** Whatever the storage and the parser do, the hook's initializer returns
    a value: what they throw is caught and goes to the console. *)
Lemma useLocalStorage_returns {A} (p : Persistence A) (key : string) (init : A) :
  exists v, fst (useLocalStorage p key init) = Returns v.
Proof.
  unfold useLocalStorage, bind, try_catch. simpl.
  destruct (getItem p key) as [[item|]|err]; eauto.
  destruct (JS.truthy_string item); eauto.
  destruct (JSON_parse p item); eauto.
Qed.

Lemma useLocalStorage_fallback {A} (p : Persistence A) (key : string) (init : A) :
  absent p key \/ failsToParse p key ->
  fst (useLocalStorage p key init) = Returns init.
Proof.
  unfold absent, failsToParse, useLocalStorage, bind, try_catch. simpl.
  intros [-> | (item & err & -> & Hp)]; [reflexivity|].
  destruct (JS.truthy_string item); [|reflexivity].
  rewrite Hp. reflexivity.
Qed.

(** The INIT action has no case in the reducer: the ledger of a freshly
    loaded component is empty whatever was persisted. *)
Lemma load_expenses_empty (host : DateHost) (pe : Persistence (list expense))
    (pb : Persistence (gmap string JS.number)) (today : Z) (st : State) :
  load host pe pb today = Returns st -> expenses st = [].
Proof.
  unfold load, bind.
  destruct (savedExpenses pe); [|discriminate].
  destruct (savedBudgets _ pb); [|discriminate].
  intros [= <-]. reflexivity.
Qed.

(** C9.  Loading never throws.  When the [expenses] blob is absent or does
    not parse, the stored value falls back to the empty list and the
    ledger is empty; when the [budgets] blob is absent or does not parse,
    the stored value and the budget table are the default limits: food
    300, housing 800, transportation 150, utilities 200, entertainment 100,
    healthcare 150, shopping 200, other 100. *)
Theorem load_falls_back_to_defaults (host : DateHost)
    (pe : Persistence (list expense))
    (pb : Persistence (gmap string JS.number)) (today : Z) :
  defaultBudgets
  = list_to_map
      [ ("food", JS.parseFloat "300"); ("housing", JS.parseFloat "800");
        ("transportation", JS.parseFloat "150");
        ("utilities", JS.parseFloat "200");
        ("entertainment", JS.parseFloat "100");
        ("healthcare", JS.parseFloat "150");
        ("shopping", JS.parseFloat "200"); ("other", JS.parseFloat "100") ]
  /\ (absent pe "expenses" \/ failsToParse pe "expenses" ->
      savedExpenses pe = Returns [])
  /\ (absent pb "budgets" \/ failsToParse pb "budgets" ->
      savedBudgets (initialState host today) pb = Returns defaultBudgets)
  /\ exists st,
       load host pe pb today = Returns st
       /\ isLoading st = false
       /\ (absent pe "expenses" \/ failsToParse pe "expenses" ->
           expenses st = [])
       /\ (absent pb "budgets" \/ failsToParse pb "budgets" ->
           budgets st = defaultBudgets).
Proof.
  split; [vm_compute; reflexivity|].
  split; [apply useLocalStorage_fallback|].
  split; [apply (useLocalStorage_fallback pb "budgets" defaultBudgets)|].
  unfold load, bind, savedExpenses, savedBudgets.
  destruct (useLocalStorage_returns pe "expenses" []) as [se Hse].
  destruct (useLocalStorage_returns pb "budgets"
              (budgets (initialState host today))) as [sb Hsb].
  rewrite Hse, Hsb. eexists. split; [reflexivity|].
  split; [reflexivity|]. split; [reflexivity|].
  intros H.
  pose proof (useLocalStorage_fallback pb "budgets" defaultBudgets H) as Hf.
  change (budgets (initialState host today)) with defaultBudgets in Hsb.
  change (sb = defaultBudgets). congruence.
Qed.

Lemma load_falls_back_to_defaults_witness :
  exists st,
    load utcHost (corruptBudgets (fun _ => Returns [])) 
      (corruptBudgets (fun _ => Returns ∅)) march2024 = Returns st
    /\ expenses st = []
    /\ budgets st = defaultBudgets
    /\ budgets st !! "housing" = Some (JS.of_Z 800).
Proof.
  destruct (load_falls_back_to_defaults utcHost
              (corruptBudgets (fun _ => Returns []))
              (corruptBudgets (fun _ => Returns ∅)) march2024)
    as (_ & _ & _ & st & Hst & _ & He & Hb).
  exists st. split; [exact Hst|].
  split; [apply He; left; reflexivity|].
  assert (Hd : budgets st = defaultBudgets).
  { apply Hb. right. exists "{food:", "SyntaxError: Unexpected token f in JSON at position 1".
    split; reflexivity. }
  split; [exact Hd|]. rewrite Hd. vm_compute. reflexivity.
Defined.

(** ** The month selector *)

(** C8.  Stepping back from month 0 selects month 11 of the year before and
    from any other month the month before in the same year; stepping
    forward from month 11 selects month 0 of the year after and from any
    other month the month after in the same year.  The steps are the
    Number operations of the code; on a month from 0 to 11 and any year
    below [2^53] in magnitude they are the integer ones, so no bound other
    than the wrap-around applies.  The steps change nothing else. *)
Theorem month_selector_wraps (st : State) :
  selection (previousMonth st)
  = (if JS.strict_eq (currentMonth st) JS.zero
     then (JS.of_Z 11, JS.sub (currentYear st) (JS.of_Z 1))
     else (JS.sub (currentMonth st) (JS.of_Z 1), currentYear st))
  /\ selection (nextMonth st)
     = (if JS.strict_eq (currentMonth st) (JS.of_Z 11)
        then (JS.of_Z 0, JS.add (currentYear st) (JS.of_Z 1))
        else (JS.add (currentMonth st) (JS.of_Z 1), currentYear st))
  /\ (forall M Y : Z,
        currentMonth st = JS.of_Z M -> currentYear st = JS.of_Z Y ->
        0 <= M <= 11 -> JS.safe (Y - 1) -> JS.safe (Y + 1) ->
        selection (previousMonth st)
        = (if M =? 0 then (JS.of_Z 11, JS.of_Z (Y - 1))
           else (JS.of_Z (M - 1), JS.of_Z Y))
        /\ selection (nextMonth st)
           = (if M =? 11 then (JS.of_Z 0, JS.of_Z (Y + 1))
              else (JS.of_Z (M + 1), JS.of_Z Y)))
  /\ expenses (previousMonth st) = expenses st
  /\ budgets (previousMonth st) = budgets st
  /\ expenses (nextMonth st) = expenses st
  /\ budgets (nextMonth st) = budgets st.
Proof.
  assert (Hp : selection (previousMonth st)
               = (if JS.strict_eq (currentMonth st) JS.zero
                  then (JS.of_Z 11, JS.sub (currentYear st) (JS.of_Z 1))
                  else (JS.sub (currentMonth st) (JS.of_Z 1), currentYear st))).
  { unfold previousMonth.
    destruct (JS.strict_eq (currentMonth st) JS.zero); reflexivity. }
  assert (Hn : selection (nextMonth st)
               = (if JS.strict_eq (currentMonth st) (JS.of_Z 11)
                  then (JS.of_Z 0, JS.add (currentYear st) (JS.of_Z 1))
                  else (JS.add (currentMonth st) (JS.of_Z 1), currentYear st))).
  { unfold nextMonth.
    destruct (JS.strict_eq (currentMonth st) (JS.of_Z 11)); reflexivity. }
  split; [exact Hp|]. split; [exact Hn|]. split.
  - intros M Y HM HY HMr HYp HYn. rewrite Hp, Hn, HM, HY.
    assert (S1 : JS.safe 1) by (unfold JS.safe; lia).
    assert (SM : JS.safe M) by (unfold JS.safe; lia).
    assert (SY : JS.safe Y) by (unfold JS.safe in *; lia).
    change JS.zero with (JS.of_Z 0). unfold JS.strict_eq, JS.sub, JS.add.
    rewrite !Exact.strict_eq_of_Z, !Exact.sub_of_Z, !Exact.add_of_Z;
      try assumption; try (unfold JS.safe; lia).
    split; reflexivity.
  - clear Hp Hn. unfold previousMonth, nextMonth.
    destruct (JS.strict_eq (currentMonth st) JS.zero),
             (JS.strict_eq (currentMonth st) (JS.of_Z 11));
      repeat split; reflexivity.
Qed.

Lemma month_selector_wraps_witness :
  selection january2024 = (JS.of_Z 0, JS.of_Z 2024)
  /\ selection (previousMonth january2024) = (JS.of_Z 11, JS.of_Z 2023)
  /\ selection (nextMonth january2024) = (JS.of_Z 1, JS.of_Z 2024).
Proof.
  split; [reflexivity|].
  destruct (month_selector_wraps january2024) as (_ & _ & H & _).
  destruct (H 0 2024) as [Hp Hn];
    try reflexivity; try (unfold JS.safe; lia).
  split; [exact Hp | exact Hn].
Defined.

(** * Further properties of the component *)

(** ** The ledger: deleting, adding, editing *)

Lemma of_Z_number (z : Z) : JS.isNaN (JS.of_Z z) = false.
Proof.
  unfold JS.of_Z, binary_normalize. destruct z as [|p|p]; [reflexivity| |];
    unfold binary_round; destruct (shl_align _ _ _) as [mz ez];
    match goal with |- JS.isNaN (binary_round_aux _ _ ?s ?m ?e ?l) = _ =>
      pose proof (Parse.binary_round_aux_sign s m e l) as H
    end;
    (destruct (binary_round_aux _ _ _ _ _ _); [reflexivity..| |reflexivity]);
    exfalso; apply H; lia.
Qed.

Lemma set_expenses_same (st : State) : set_expenses st (expenses st) = st.
Proof. destruct st; reflexivity. Qed.

Lemma filter_all (A : Type) (f : A -> bool) (l : list A) :
  (forall a, In a l -> f a = true) -> List.filter f l = l.
Proof.
  induction l as [|a l IH]; simpl; intros H; [reflexivity|].
  rewrite H, IH; auto.
Qed.

Lemma filter_sublist (A : Type) (f : A -> bool) (l : list A) :
  sublist (List.filter f l) l.
Proof.
  induction l as [|a l IH]; simpl; [constructor|].
  destruct (f a); [apply sublist_skip | apply sublist_cons]; exact IH.
Qed.

Lemma filter_split_perm (A : Type) (f : A -> bool) (l : list A) :
  Permutation l (List.filter f l ++ List.filter (fun a => negb (f a)) l).
Proof.
  induction l as [|a l IH]; simpl; [reflexivity|].
  destruct (f a); simpl.
  - constructor. exact IH.
  - rewrite <- Permutation_middle. constructor. exact IH.
Qed.

(** X1.  [deleteExpense] removes every transaction whose id is the given
    one and nothing else.  The ledger splits, counting repetitions, into
    the transactions kept, none of which has the id, and the transactions
    removed, all of which have it; the kept ones stand in the order they
    had.  Every other part of the state (the form, edit mode, the loading
    flag, the selection, the budgets) is untouched. *)
Theorem delete_removes_exactly (st : State) (id : JS.number) :
  let kept := expenses (deleteExpense st id) in
  (exists removed,
     Permutation (expenses st) (kept ++ removed)
     /\ Forall (fun e => JS.strict_eq (Expense.id e) id = true) removed)
  /\ Forall (fun e => JS.strict_eq (Expense.id e) id = false) kept
  /\ sublist kept (expenses st)
  /\ (forall e, In e kept
                <-> In e (expenses st) /\ JS.strict_eq (Expense.id e) id = false)
  /\ description (deleteExpense st id) = description st
  /\ amount (deleteExpense st id) = amount st
  /\ category (deleteExpense st id) = category st
  /\ type (deleteExpense st id) = type st
  /\ editingExpenseId (deleteExpense st id) = editingExpenseId st
  /\ showAddExpense (deleteExpense st id) = showAddExpense st
  /\ isLoading (deleteExpense st id) = isLoading st
  /\ currentMonth (deleteExpense st id) = currentMonth st
  /\ currentYear (deleteExpense st id) = currentYear st
  /\ budgets (deleteExpense st id) = budgets st
  /\ showEditBudget (deleteExpense st id) = showEditBudget st.
Proof.
  intros kept. subst kept. simpl expenses.
  split.
  { exists (List.filter (fun e => negb (negb (JS.strict_eq (Expense.id e) id)))
              (expenses st)).
    split; [apply filter_split_perm|].
    apply List.Forall_forall. intros e He. apply filter_In in He as [_ He].
    rewrite negb_involutive in He. exact He. }
  split.
  { apply List.Forall_forall. intros e He. apply filter_In in He as [_ He].
    apply negb_true_iff in He. exact He. }
  split; [apply filter_sublist|].
  split.
  { intros e. rewrite filter_In, negb_true_iff. reflexivity. }
  repeat split.
Qed.

(** X2.  Deleting is idempotent, and deleting an id that no transaction
    carries (a NaN id among them) leaves the state as it is. *)
Theorem delete_idempotent (st : State) (id : JS.number) :
  deleteExpense (deleteExpense st id) id = deleteExpense st id
  /\ ((forall e, In e (expenses st) -> JS.strict_eq (Expense.id e) id = false)
      -> deleteExpense st id = st)
  /\ (JS.isNaN id = true -> deleteExpense st id = st).
Proof.
  assert (Hno : (forall e, In e (expenses st) ->
                   JS.strict_eq (Expense.id e) id = false) ->
                deleteExpense st id = st).
  { intros H. unfold deleteExpense, dispatch. simpl.
    rewrite filter_all; [apply set_expenses_same|].
    intros e He. rewrite (H e He). reflexivity. }
  split; [|split; [exact Hno|]].
  - unfold deleteExpense, dispatch. simpl. f_equal.
    apply filter_all. intros e He. apply filter_In in He. tauto.
  - intros Hnan. apply Hno. intros e _.
    destruct id; try discriminate.
    unfold JS.strict_eq, SFeqb. destruct (Expense.id e); reflexivity.
Qed.

Lemma delete_idempotent_witness :
  deleteExpense rentOnly (JS.of_Z 7) = rentOnly
  /\ deleteExpense rentOnly JS.NaN = rentOnly
  /\ expenses (deleteExpense rentOnly (JS.of_Z march2024)) = [].
Proof.
  destruct (delete_idempotent rentOnly (JS.of_Z 7)) as (_ & H & _).
  destruct (delete_idempotent rentOnly JS.NaN) as (_ & _ & Hn).
  split; [apply H; intros e [<-|[]]; vm_compute; reflexivity|].
  split; [apply Hn; reflexivity | vm_compute; reflexivity].
Defined.

(** X3.  Deleting a transaction right after adding it removes it again,
    together with every older transaction that carries the same id: when
    the id was fresh, the ledger is back to what it was. *)
Theorem add_then_delete (host : DateHost) (st : State) (now today : Z) :
  formIsValid st = true ->
  expenses (deleteExpense (handleAddExpense host st now today) (JS.of_Z now))
  = List.filter (fun e => negb (JS.strict_eq (Expense.id e) (JS.of_Z now)))
      (expenses st)
  /\ ((forall e, In e (expenses st) ->
         JS.strict_eq (Expense.id e) (JS.of_Z now) = false) ->
      expenses (deleteExpense (handleAddExpense host st now today) (JS.of_Z now))
      = expenses st).
Proof.
  intros Hv.
  assert (H : expenses (deleteExpense (handleAddExpense host st now today)
                          (JS.of_Z now))
              = List.filter (fun e => negb (JS.strict_eq (Expense.id e) (JS.of_Z now)))
                  (expenses st)).
  { unfold deleteExpense, dispatch. simpl.
    rewrite (handleAddExpense_valid host st now today Hv), List.filter_app. simpl.
    rewrite (strict_eq_refl _ (of_Z_number now)). simpl. apply app_nil_r. }
  split; [exact H|]. intros Hfresh. rewrite H. apply filter_all.
  intros e He. rewrite (Hfresh e He). reflexivity.
Qed.

Lemma add_then_delete_witness :
  let st := setAmount (setDescription rentOnly "Food") "12" in
  expenses (deleteExpense (handleAddExpense utcHost st (march2024 + 5) (march2024 + 5))
              (JS.of_Z (march2024 + 5)))
  = expenses rentOnly
  /\ expenses (deleteExpense (handleAddExpense utcHost st march2024 (march2024 + 5))
                 (JS.of_Z march2024))
     = [].
Proof.
  cbv zeta. split.
  - match goal with |- expenses (deleteExpense (handleAddExpense _ ?st ?n ?t) _) = _ =>
      destruct (add_then_delete utcHost st n t eq_refl) as [_ H]
    end.
    apply H. intros e [<-|[]]. vm_compute. reflexivity.
  - match goal with |- expenses (deleteExpense (handleAddExpense _ ?st ?n ?t) _) = _ =>
      destruct (add_then_delete utcHost st n t eq_refl) as [H _]
    end.
    rewrite H. vm_compute. reflexivity.
Defined.

(** X4.  A second click cannot add or update twice: an accepted add or
    update clears the form (and an update leaves edit mode), so the same
    handler run again on the resulting state changes nothing. *)
Theorem handlers_idempotent (host : DateHost) (st : State)
    (now today now' today' : Z) :
  handleAddExpense host (handleAddExpense host st now today) now' today'
  = handleAddExpense host st now today
  /\ updateExpense host (updateExpense host st today) today'
     = updateExpense host st today.
Proof.
  split.
  - destruct (formIsValid st) eqn:E.
    + apply handleAddExpense_invalid.
      unfold handleAddExpense. rewrite E. reflexivity.
    + rewrite (handleAddExpense_invalid host st now today E).
      apply handleAddExpense_invalid. exact E.
  - assert (H : (forall t, updateExpense host st t = st)
                \/ editingExpenseId (updateExpense host st today) = None).
    { unfold updateExpense. destruct (editingExpenseId st) as [eid|]; [|auto].
      destruct (formIsValid st && JS.truthy_number eid); auto. }
    destruct H as [H|H]; [rewrite !H; reflexivity|].
    unfold updateExpense at 1. rewrite H. reflexivity.
Qed.

(** X5.  Updating after the transaction under edit was deleted changes no
    transaction: the update finds no record with the id. *)
Theorem update_after_delete (host : DateHost) (st : State) (today : Z)
    (eid : JS.number) :
  editingExpenseId st = Some eid ->
  expenses (updateExpense host (deleteExpense st eid) today)
  = expenses (deleteExpense st eid).
Proof.
  intros He. unfold updateExpense.
  change (editingExpenseId (deleteExpense st eid)) with (editingExpenseId st).
  rewrite He.
  destruct (formIsValid (deleteExpense st eid) && JS.truthy_number eid);
    [|reflexivity].
  simpl. apply map_id_on. intros e Hin.
  apply filter_In in Hin as [_ Hne]. apply negb_true_iff in Hne.
  rewrite Hne. reflexivity.
Qed.

Lemma update_after_delete_witness :
  expenses (updateExpense utcHost (deleteExpense editingRent (JS.of_Z march2024))
              (march2024 + 1))
  = [].
Proof.
  rewrite (update_after_delete utcHost editingRent (march2024 + 1)
             (JS.of_Z march2024) eq_refl).
  vm_compute. reflexivity.
Defined.

(** X6.  Opening a transaction in the form and submitting it unchanged
    gives it an [updatedAt] and changes nothing else in it, provided the
    amount text shown parses back to the amount; transactions with another
    id are untouched.  The transaction must be one the update accepts: a
    description that is not blank, an amount that is a number, an id that
    is neither zero nor NaN. *)
Theorem edit_unchanged (host : DateHost) (st : State) (e : expense)
    (amountText : string) (today : Z) (i : nat) :
  expenses st !! i = Some e ->
  JS.trim (Expense.description e) <> "" ->
  JS.parseFloat amountText = Expense.amount e ->
  JS.isNaN (Expense.amount e) = false ->
  JS.truthy_number (Expense.id e) = true ->
  expenses (updateExpense host (startEditExpense st e amountText) today) !! i
  = Some {| Expense.id := Expense.id e;
            Expense.description := Expense.description e;
            Expense.amount := Expense.amount e;
            Expense.category := Expense.category e;
            Expense.type := Expense.type e;
            Expense.date := Expense.date e;
            Expense.updatedAt := Some (toISOString host today) |}
  /\ forall j x, expenses st !! j = Some x ->
       JS.strict_eq (Expense.id x) (Expense.id e) = false ->
       expenses (updateExpense host (startEditExpense st e amountText) today) !! j
       = Some x.
Proof.
  intros Hi Hd Ha Hn Ht.
  assert (Hv : formIsValid (startEditExpense st e amountText) = true).
  { apply formIsValid_spec. simpl. rewrite Ha. auto. }
  rewrite (updateExpense_valid host (startEditExpense st e amountText) today
             (Expense.id e) eq_refl Hv Ht).
  simpl expenses. split.
  - rewrite lookup_map, Hi. simpl.
    assert (He : JS.strict_eq (Expense.id e) (Expense.id e) = true).
    { apply strict_eq_refl. destruct (Expense.id e); try reflexivity; discriminate. }
    rewrite He. unfold edited. simpl. rewrite Ha. reflexivity.
  - intros j x Hj Hne. rewrite lookup_map, Hj. simpl. rewrite Hne. reflexivity.
Qed.

Lemma edit_unchanged_witness :
  exists rent,
    expenses rentOnly !! 0%nat = Some rent
    /\ expenses (updateExpense utcHost (startEditExpense rentOnly rent "800.00")
                   (march2024 + 1)) !! 0%nat
       = Some {| Expense.id := JS.of_Z march2024;
                 Expense.description := "Rent";
                 Expense.amount := JS.of_Z 800;
                 Expense.category := "housing";
                 Expense.type := "expense";
                 Expense.date := "2024-03-15T12:00:00.000Z";
                 Expense.updatedAt := Some "2024-03-15T12:00:00.001Z" |}.
Proof.
  eexists. split; [reflexivity|].
  match goal with |- expenses (updateExpense _ (startEditExpense _ ?e _) _) !! _ = _ =>
    assert (Hd : JS.trim (Expense.description e) <> "") by discriminate;
    pose proof (edit_unchanged utcHost rentOnly e "800.00" (march2024 + 1) 0%nat
                  eq_refl Hd eq_refl eq_refl eq_refl) as [H _]
  end.
  rewrite H. vm_compute. reflexivity.
Defined.

(** ** The monthly totals *)

Lemma handleAddExpense_state (host : DateHost) (st : State) (now today : Z) :
  formIsValid st = true ->
  handleAddExpense host st now today
  = mkState (expenses st ++ [newExpenseObj host st now today]) "" ""
      (category st) (type st) (editingExpenseId st) false (isLoading st)
      (currentMonth st) (currentYear st) (budgets st) (showEditBudget st).
Proof. unfold handleAddExpense. intros ->. reflexivity. Qed.

Lemma sumAmounts_snoc (p q : expense -> bool) (l : list expense) (e : expense) :
  sumAmounts (List.filter q (List.filter p (l ++ [e])))
  = if p e && q e
    then JS.add (sumAmounts (List.filter q (List.filter p l))) (Expense.amount e)
    else sumAmounts (List.filter q (List.filter p l)).
Proof.
  unfold sumAmounts. rewrite List.filter_app. simpl.
  destruct (p e); simpl; [|rewrite app_nil_r; reflexivity].
  rewrite List.filter_app. simpl.
  destruct (q e); simpl; [|rewrite app_nil_r; reflexivity].
  rewrite fold_left_app. reflexivity.
Qed.

(** X7.  An accepted add whose date falls in the selected month adds its
    amount to the total of its kind and to nothing else: an expense raises
    the total expense and the total of its own category, an income raises
    the total income and no category total. *)
Theorem add_in_month_changes_totals (host : DateHost) (st : State)
    (now today : Z) :
  formIsValid st = true ->
  inSelectedMonth host st (newExpenseObj host st now today) = true ->
  let st' := handleAddExpense host st now today in
  let a := JS.parseFloat (amount st) in
  totalIncome host st'
  = (if String.eqb (type st) "income"
     then JS.add (totalIncome host st) a else totalIncome host st)
  /\ totalExpenses host st'
     = (if String.eqb (type st) "expense"
        then JS.add (totalExpenses host st) a else totalExpenses host st)
  /\ forall cat,
       categoryTotal host st' cat
       = (if String.eqb (category st) cat && String.eqb (type st) "expense"
          then JS.add (categoryTotal host st cat) a
          else categoryTotal host st cat).
Proof.
  intros Hv Hin st' a. subst st'.
  rewrite (handleAddExpense_state host st now today Hv).
  unfold totalIncome, totalExpenses, categoryTotal, currentMonthExpenses.
  simpl expenses.
  change (inSelectedMonth host (mkState _ _ _ _ _ _ _ _ _ _ _ _))
    with (inSelectedMonth host st).
  rewrite !sumAmounts_snoc, Hin. simpl.
  split; [reflexivity|]. split; [reflexivity|].
  intros cat. rewrite sumAmounts_snoc, Hin. reflexivity.
Qed.

Lemma add_in_month_changes_totals_witness :
  let st := setType (setAmount (setDescription rentOnly "Salary") "2000") "income" in
  totalIncome utcHost (handleAddExpense utcHost st (march2024 + 1) (march2024 + 1))
  = JS.of_Z 2000
  /\ categoryTotal utcHost
       (handleAddExpense utcHost st (march2024 + 1) (march2024 + 1)) "housing"
     = JS.of_Z 800.
Proof.
  cbv zeta.
  match goal with |- totalIncome _ (handleAddExpense _ ?st ?n ?t) = _ /\ _ =>
    pose proof (add_in_month_changes_totals utcHost st n t eq_refl eq_refl) as H
  end.
  cbv zeta in H. destruct H as (Hi & _ & Hc).
  split; [rewrite Hi | rewrite Hc]; vm_compute; reflexivity.
Defined.

(** X8.  A transaction dated outside the selected month changes none of
    the figures shown: the totals, the balance, the category totals and
    the percentages stay as they were. *)
Theorem add_outside_month_changes_nothing (host : DateHost) (st : State)
    (now today : Z) :
  formIsValid st = true ->
  inSelectedMonth host st (newExpenseObj host st now today) = false ->
  let st' := handleAddExpense host st now today in
  currentMonthExpenses host st' = currentMonthExpenses host st
  /\ totalIncome host st' = totalIncome host st
  /\ totalExpenses host st' = totalExpenses host st
  /\ balance host st' = balance host st
  /\ categoryTotals host st' = categoryTotals host st
  /\ categoryPercentages host st' = categoryPercentages host st.
Proof.
  intros Hv Hout st'.
  assert (Hc : currentMonthExpenses host st' = currentMonthExpenses host st).
  { subst st'. rewrite (handleAddExpense_state host st now today Hv).
    unfold currentMonthExpenses. simpl expenses.
    change (inSelectedMonth host (mkState _ _ _ _ _ _ _ _ _ _ _ _))
      with (inSelectedMonth host st).
    rewrite List.filter_app. simpl. rewrite Hout. apply app_nil_r. }
  assert (Hb : budgets st' = budgets st).
  { subst st'. rewrite (handleAddExpense_state host st now today Hv). reflexivity. }
  unfold balance, totalIncome, totalExpenses, categoryTotals,
    categoryPercentages, categoryTotal.
  rewrite Hc, Hb. repeat split.
Qed.

Lemma add_outside_month_changes_nothing_witness :
  let st := setAmount (setDescription (nextMonth rentOnly) "Food") "12" in
  totalExpenses utcHost (handleAddExpense utcHost st (march2024 + 1) (march2024 + 1))
  = JS.zero
  /\ length (expenses (handleAddExpense utcHost st (march2024 + 1) (march2024 + 1)))
     = 2%nat.
Proof.
  cbv zeta.
  match goal with |- totalExpenses _ (handleAddExpense _ ?st ?n ?t) = _ /\ _ =>
    pose proof (add_outside_month_changes_nothing utcHost st n t eq_refl eq_refl) as H
  end.
  cbv zeta in H. destruct H as (_ & _ & He & _).
  split; [rewrite He|]; vm_compute; reflexivity.
Defined.

(** X9.  The budget overview has a row for exactly the categories of the
    budget table: [categoryTotals] and [categoryPercentages] hold a value
    for a category if and only if the table holds a limit for it. *)
Theorem overview_covers_budget_keys (host : DateHost) (st : State) (cat : string) :
  (is_Some (categoryTotals host st !! cat) <-> is_Some (budgets st !! cat))
  /\ (is_Some (categoryPercentages host st !! cat)
      <-> is_Some (budgets st !! cat))
  /\ (forall limit, budgets st !! cat = Some limit ->
        categoryTotals host st !! cat = Some (categoryTotal host st cat)
        /\ categoryPercentages host st !! cat
           = Some (percentage (categoryTotal host st cat) limit)).
Proof.
  unfold categoryTotals. rewrite categoryPercentages_lookup, map_lookup_imap.
  destruct (budgets st !! cat) as [limit|]; simpl.
  - split; [split; eauto|]. split; [split; eauto|].
    intros l' [= <-]. split; reflexivity.
  - split; [split; intros [x Hx]; discriminate|].
    split; [split; intros [x Hx]; discriminate|].
    intros l' Hl. discriminate.
Qed.

Lemma add_nonNegative (x y : JS.number) :
  JS.hasSign false x -> nonNegative y = true -> JS.hasSign false (JS.add x y).
Proof.
  unfold nonNegative, JS.add. intros Hx Hy.
  apply andb_true_iff in Hy as [Hn Hg].
  destruct x as [sx|sx| |sx mx ex]; simpl in Hx; try contradiction; subst;
    destruct y as [[]|[]| |[] my ey]; try discriminate; try reflexivity.
  unfold SFadd, binary_normalize.
  match goal with |- context [Z.add ?a ?b] =>
    assert (Hpos : 0 < Z.add a b) by (simpl; lia);
    destruct (Z.add a b) as [|m|m]; try lia
  end.
  unfold binary_round. destruct (shl_align _ _ _) as [mz ez].
  apply Parse.binary_round_aux_sign. lia.
Qed.

Lemma sumAmounts_nonNegative (l : list expense) :
  Forall (fun e => nonNegative (Expense.amount e) = true) l ->
  nonNegative (sumAmounts l) = true.
Proof.
  intros H. unfold sumAmounts.
  assert (Hs : forall acc, JS.hasSign false acc ->
               JS.hasSign false
                 (fold_left (fun sum e => JS.add sum (Expense.amount e)) l acc)).
  { induction H as [|e l He Hl IH]; intros acc Hacc; simpl; [exact Hacc|].
    apply IH. apply add_nonNegative; assumption. }
  destruct (Parse.hasSign_false _ (Hs JS.zero eq_refl)) as [Hn Hg].
  unfold nonNegative. rewrite Hn, Hg. reflexivity.
Qed.

Lemma Forall_filter_keep (A : Type) (P : A -> Prop) (f : A -> bool) (l : list A) :
  Forall P l -> Forall P (List.filter f l).
Proof.
  induction 1 as [|a l Ha Hl IH]; simpl; [constructor|].
  destruct (f a); [constructor|]; assumption.
Qed.

(** X10.  When no transaction of the ledger has a negative (or NaN) amount,
    the total income, the total expense and every category total are
    numbers that are not negative. *)
Theorem totals_nonNegative (host : DateHost) (st : State) :
  Forall (fun e => nonNegative (Expense.amount e) = true) (expenses st) ->
  nonNegative (totalIncome host st) = true
  /\ nonNegative (totalExpenses host st) = true
  /\ forall cat, nonNegative (categoryTotal host st cat) = true.
Proof.
  intros H. unfold totalIncome, totalExpenses, categoryTotal, currentMonthExpenses.
  repeat split; intros; apply sumAmounts_nonNegative;
    repeat apply Forall_filter_keep; exact H.
Qed.

Lemma totals_nonNegative_witness :
  nonNegative (totalIncome utcHost incomeAndExpense) = true
  /\ nonNegative (categoryTotal utcHost incomeAndExpense "food") = true.
Proof.
  destruct (totals_nonNegative utcHost incomeAndExpense) as (Hi & _ & Hc).
  - assert (H : forallb (fun e => nonNegative (Expense.amount e))
                  (expenses incomeAndExpense) = true)
      by (vm_compute; reflexivity).
    apply List.Forall_forall. intros e He.
    exact (proj1 (forallb_forall _ _) H e He).
  - split; [exact Hi | exact (Hc "food")].
Defined.

(** ** The budget table *)

Lemma updateBudget_budgets (st : State) (cat value : string) :
  budgets (updateBudget st cat value)
  = if nonNegative (JS.parseFloat value)
    then <[cat := JS.parseFloat value]> (budgets st)
    else budgets st.
Proof.
  unfold updateBudget, nonNegative.
  destruct (negb (JS.isNaN (JS.parseFloat value))
            && JS.ge (JS.parseFloat value) JS.zero); reflexivity.
Qed.

(** X11.  [updateBudget] changes at most the limit of the category it is
    given, and only to a number that is not negative; a value that is
    negative or has no numeral in front, the empty text of a cleared input
    among them, leaves the whole state as it is. *)
Theorem updateBudget_frame (st : State) (cat value : string) :
  (forall other, other <> cat ->
     budgets (updateBudget st cat value) !! other = budgets st !! other)
  /\ (nonNegative (JS.parseFloat value) = true ->
      budgets (updateBudget st cat value) !! cat = Some (JS.parseFloat value))
  /\ (nonNegative (JS.parseFloat value) = false ->
      updateBudget st cat value = st)
  /\ updateBudget st cat "" = st
  /\ expenses (updateBudget st cat value) = expenses st
  /\ selection (updateBudget st cat value) = selection st.
Proof.
  split; [|split; [|split; [|split]]].
  - intros other Hne. rewrite updateBudget_budgets.
    destruct (nonNegative _); [|reflexivity].
    apply lookup_insert_ne. congruence.
  - intros H. rewrite updateBudget_budgets, H. apply lookup_insert_eq.
  - unfold updateBudget, nonNegative. intros ->. reflexivity.
  - reflexivity.
  - unfold updateBudget. destruct (_ && _); split; reflexivity.
Qed.

(** X12.  Whatever is typed into the budget inputs of the categories shown,
    the table keeps its categories and every limit stays a number that is
    not negative: this holds for the default table and after any sequence
    of edits. *)
Theorem budget_edits_keep_table (st : State) (edits : list (string * string)) :
  map_Forall (fun _ limit => nonNegative limit = true) (budgets st) ->
  Forall (fun edit => is_Some (budgets st !! fst edit)) edits ->
  map_Forall (fun _ limit => nonNegative limit = true)
    (budgets (applyBudgetEdits st edits))
  /\ (forall cat, is_Some (budgets (applyBudgetEdits st edits) !! cat)
                  <-> is_Some (budgets st !! cat))
  /\ map_Forall (fun _ limit => nonNegative limit = true) defaultBudgets.
Proof.
  intros Hinv Hkeys. split; [|split].
  - clear Hkeys. revert st Hinv. unfold applyBudgetEdits.
    induction edits as [|[cat value] edits IH]; intros st Hinv; simpl;
      [exact Hinv|].
    apply IH. rewrite updateBudget_budgets.
    destruct (nonNegative (JS.parseFloat value)) eqn:E; [|exact Hinv].
    apply map_Forall_insert_2; assumption.
  - clear Hinv. revert st Hkeys. unfold applyBudgetEdits.
    induction edits as [|[c v] edits IH]; intros st Hkeys cat; simpl;
      [reflexivity|].
    apply Forall_cons in Hkeys as [Hc Hrest]. simpl in Hc.
    assert (Hsame : forall k, is_Some (budgets (updateBudget st c v) !! k)
                              <-> is_Some (budgets st !! k)).
    { intros k. rewrite updateBudget_budgets.
      destruct (nonNegative (JS.parseFloat v)); [|reflexivity].
      rewrite lookup_insert_is_Some'. split; [|auto].
      intros [<-|H]; assumption. }
    rewrite IH; [apply Hsame|].
    eapply Forall_impl; [exact Hrest|]. intros edit H. apply Hsame, H.
  - unfold defaultBudgets. simpl.
    repeat (apply map_Forall_insert_2; [reflexivity|]).
    apply map_Forall_empty.
Qed.

Lemma budget_edits_keep_table_witness :
  let st := applyBudgetEdits rentOnly
              [("food", "250.5"); ("housing", "-1"); ("other", ""); ("food", "1e3x")] in
  budgets st !! "food" = Some (JS.of_Z 1000)
  /\ budgets st !! "housing" = Some (JS.of_Z 800)
  /\ map_Forall (fun _ limit => nonNegative limit = true) (budgets st)
  /\ (is_Some (budgets st !! "pets") <-> is_Some (budgets rentOnly !! "pets")).
Proof.
  cbv zeta.
  match goal with |- context [applyBudgetEdits ?st ?edits] =>
    destruct (budget_edits_keep_table st edits) as (Hinv & Hkeys & Hdef)
  end.
  - unfold rentOnly. simpl budgets.
    repeat (apply map_Forall_insert_2; [reflexivity|]).
    apply map_Forall_empty.
  - repeat constructor; simpl; eexists; vm_compute; reflexivity.
  - split; [vm_compute; reflexivity|]. split; [vm_compute; reflexivity|].
    split; [exact Hinv | apply Hkeys].
Defined.

(** ** The month selector, step after step *)

Lemma set_selection_same (st : State) (a b : JS.number) :
  set_selection (set_selection st a b) (currentMonth st) (currentYear st) = st.
Proof. destruct st; reflexivity. Qed.

(** The steps on an integer month from 0 to 11 and an integer year. *)
Lemma nextMonth_integers (st : State) (M Y : Z) :
  currentMonth st = JS.of_Z M -> currentYear st = JS.of_Z Y ->
  0 <= M <= 11 -> JS.safe Y -> JS.safe (Y + 1) ->
  nextMonth st
  = if M =? 11 then set_selection st (JS.of_Z 0) (JS.of_Z (Y + 1))
    else set_selection st (JS.of_Z (M + 1)) (JS.of_Z Y).
Proof.
  intros HM HY HMr SY SY1. unfold nextMonth. rewrite HM, HY.
  unfold JS.strict_eq, JS.add.
  rewrite Exact.strict_eq_of_Z, !Exact.add_of_Z;
    try assumption; try (unfold JS.safe; lia).
  reflexivity.
Qed.

Lemma previousMonth_integers (st : State) (M Y : Z) :
  currentMonth st = JS.of_Z M -> currentYear st = JS.of_Z Y ->
  0 <= M <= 11 -> JS.safe Y -> JS.safe (Y - 1) ->
  previousMonth st
  = if M =? 0 then set_selection st (JS.of_Z 11) (JS.of_Z (Y - 1))
    else set_selection st (JS.of_Z (M - 1)) (JS.of_Z Y).
Proof.
  intros HM HY HMr SY SY1. unfold previousMonth. rewrite HM, HY.
  change JS.zero with (JS.of_Z 0). unfold JS.strict_eq, JS.sub.
  rewrite Exact.strict_eq_of_Z, !Exact.sub_of_Z;
    try assumption; try (unfold JS.safe; lia).
  reflexivity.
Qed.

Lemma safe_shift (Y : Z) : JS.safe (Y - 1) -> JS.safe (Y + 1) -> JS.safe Y.
Proof. unfold JS.safe. lia. Qed.

(** X13.  The two arrows undo each other: on a month from 0 to 11 and a
    year below [2^53 - 1] in magnitude, forward then backward and backward
    then forward both give back the state they started from. *)
Theorem month_steps_undo (st : State) (M Y : Z) :
  currentMonth st = JS.of_Z M -> currentYear st = JS.of_Z Y ->
  0 <= M <= 11 -> JS.safe (Y - 1) -> JS.safe (Y + 1) ->
  previousMonth (nextMonth st) = st /\ nextMonth (previousMonth st) = st.
Proof.
  intros HM HY HMr SYp SYn.
  pose proof (safe_shift Y SYp SYn) as SY.
  rewrite (nextMonth_integers st M Y HM HY HMr SY SYn).
  rewrite (previousMonth_integers st M Y HM HY HMr SY SYp).
  split.
  - destruct (Z.eqb_spec M 11) as [->|E]; cbv iota.
    + rewrite (previousMonth_integers
                 (set_selection st (JS.of_Z 0) (JS.of_Z (Y + 1))) 0 (Y + 1)
                 eq_refl eq_refl);
        [|lia|exact SYn|replace (Y + 1 - 1) with Y by lia; exact SY].
      change (0 =? 0) with true. cbv iota.
      replace (Y + 1 - 1) with Y by lia. rewrite <- HM, <- HY.
      apply set_selection_same.
    + rewrite (previousMonth_integers
                 (set_selection st (JS.of_Z (M + 1)) (JS.of_Z Y)) (M + 1) Y
                 eq_refl eq_refl);
        [|lia|exact SY|exact SYp].
      destruct (Z.eqb_spec (M + 1) 0) as [E0|_]; [lia|].
      replace (M + 1 - 1) with M by lia. rewrite <- HM, <- HY.
      apply set_selection_same.
  - destruct (Z.eqb_spec M 0) as [->|E]; cbv iota.
    + rewrite (nextMonth_integers
                 (set_selection st (JS.of_Z 11) (JS.of_Z (Y - 1))) 11 (Y - 1)
                 eq_refl eq_refl);
        [|lia|exact SYp|replace (Y - 1 + 1) with Y by lia; exact SY].
      change (11 =? 11) with true. cbv iota.
      replace (Y - 1 + 1) with Y by lia. rewrite <- HM, <- HY.
      apply set_selection_same.
    + rewrite (nextMonth_integers
                 (set_selection st (JS.of_Z (M - 1)) (JS.of_Z Y)) (M - 1) Y
                 eq_refl eq_refl);
        [|lia|exact SY|exact SYn].
      destruct (Z.eqb_spec (M - 1) 11) as [E0|_]; [lia|].
      replace (M - 1 + 1) with M by lia. rewrite <- HM, <- HY.
      apply set_selection_same.
Qed.

Lemma month_steps_undo_witness :
  previousMonth (nextMonth january2024) = january2024
  /\ nextMonth (previousMonth january2024) = january2024.
Proof.
  apply (month_steps_undo january2024 0 2024);
    try reflexivity; unfold JS.safe; lia.
Defined.

Lemma elementAt_index (names : list string) (i M : Z) :
  JS.safe i -> JS.safe (i + Z.of_nat (length names)) ->
  i <= M < i + Z.of_nat (length names) ->
  exists name, elementAt names i (JS.of_Z M) = Some name.
Proof.
  revert i. induction names as [|name rest IH]; intros i Si Sn HM; simpl in *.
  - lia.
  - unfold JS.strict_eq. rewrite Exact.strict_eq_of_Z;
      [|assumption|unfold JS.safe in *; lia].
    destruct (i =? M) eqn:E; [eauto|]. apply Z.eqb_neq in E.
    apply IH; unfold JS.safe in *; lia.
Qed.

(** X14.  However the two arrows are clicked, the month stays an integer
    from 0 to 11, so the header always finds a month name; the clicks
    change nothing but the selection. *)
Theorem navigation_keeps_month_in_range (st : State) (clicks : list bool) (M : Z) :
  currentMonth st = JS.of_Z M -> 0 <= M <= 11 ->
  (exists M', currentMonth (navigate st clicks) = JS.of_Z M' /\ 0 <= M' <= 11)
  /\ (exists name, headerMonth (navigate st clicks) = Some name)
  /\ expenses (navigate st clicks) = expenses st
  /\ budgets (navigate st clicks) = budgets st.
Proof.
  intros HM HMr.
  assert (H : (exists M', currentMonth (navigate st clicks) = JS.of_Z M'
                          /\ 0 <= M' <= 11)
              /\ expenses (navigate st clicks) = expenses st
              /\ budgets (navigate st clicks) = budgets st).
  { revert st M HM HMr. unfold navigate.
    induction clicks as [|forward clicks IH]; intros st M HM HMr; simpl.
    - eauto.
    - assert (S1 : JS.safe 1) by (unfold JS.safe; lia).
      assert (SM : JS.safe M) by (unfold JS.safe; lia).
      destruct forward.
      + unfold nextMonth. rewrite HM. unfold JS.strict_eq at 1.
        rewrite Exact.strict_eq_of_Z by (assumption || (unfold JS.safe; lia)).
        destruct (M =? 11) eqn:E.
        * destruct (IH (set_selection st JS.zero
                          (JS.add (currentYear st) (JS.of_Z 1))) 0)
            as (H1 & H2 & H3); [reflexivity|lia|]. auto.
        * apply Z.eqb_neq in E.
          destruct (IH (set_selection st (JS.add (JS.of_Z M) (JS.of_Z 1))
                          (currentYear st)) (M + 1))
            as (H1 & H2 & H3); [|lia|auto].
          cbn [currentMonth set_selection]. unfold JS.add. apply Exact.add_of_Z;
            try assumption; unfold JS.safe; lia.
      + unfold previousMonth. rewrite HM. change JS.zero with (JS.of_Z 0).
        unfold JS.strict_eq at 1.
        rewrite Exact.strict_eq_of_Z by (assumption || (unfold JS.safe; lia)).
        destruct (M =? 0) eqn:E.
        * destruct (IH (set_selection st (JS.of_Z 11)
                          (JS.sub (currentYear st) (JS.of_Z 1))) 11)
            as (H1 & H2 & H3); [reflexivity|lia|]. auto.
        * apply Z.eqb_neq in E.
          destruct (IH (set_selection st (JS.sub (JS.of_Z M) (JS.of_Z 1))
                          (currentYear st)) (M - 1))
            as (H1 & H2 & H3); [|lia|auto].
          cbn [currentMonth set_selection]. unfold JS.sub. apply Exact.sub_of_Z;
            try assumption; unfold JS.safe; lia. }
  destruct H as ((M' & HM' & Hr) & He & Hb).
  split; [eauto|]. split; [|auto].
  unfold headerMonth. rewrite HM'.
  apply elementAt_index; simpl; unfold JS.safe; lia.
Qed.

Lemma navigation_keeps_month_in_range_witness :
  exists name,
    headerMonth (navigate rentOnly [false; false; false; true]) = Some name
    /\ name = "January"
    /\ selection (navigate rentOnly [false; false; false; true])
       = (JS.of_Z 0, JS.of_Z 2024).
Proof.
  destruct (navigation_keeps_month_in_range rentOnly [false; false; false; true] 2)
    as (_ & (name & Hn) & _); [reflexivity | lia |].
  exists name. split; [exact Hn|].
  split; [|vm_compute; reflexivity].
  assert (H : headerMonth (navigate rentOnly [false; false; false; true])
              = Some "January") by (vm_compute; reflexivity).
  congruence.
Defined.

(** ** Local storage: writing and reading back *)

(** X15.  A value written by [setValue] is the value the hook reads when
    the component is next mounted, provided the browser took the write and
    [JSON.parse] undoes [JSON.stringify] on it; nothing is logged on
    either side. *)
Theorem setValue_then_read (A : Type) (c : Codec A)
    (fits : string -> string -> bool) (key : string) (storedValue init : A)
    (store : gmap string string) (value : A + (A -> A)) (text : string) :
  let v := match value with inl v => v | inr f => f storedValue end in
  stringify c v = Returns text ->
  text <> "" ->
  parse c text = Returns v ->
  fits key text = true ->
  exists store',
    setValue c fits key storedValue store value = (v, store', [])
    /\ store' !! key = Some text
    /\ useLocalStorage (browser c store') key init = (Returns v, []).
Proof.
  intros v Hs Hne Hp Hf. exists (<[key := text]> store).
  unfold setValue, setItem, bind. fold v. rewrite Hs, Hf.
  split; [reflexivity|]. split; [apply lookup_insert_eq|].
  unfold useLocalStorage, browser, bind, try_catch. simpl.
  rewrite lookup_insert_eq.
  apply truthy_string_spec in Hne. rewrite Hne, Hp. reflexivity.
Qed.

Lemma setValue_then_read_witness :
  exists store',
    setValue countingCodec (fun _ _ => true) "expenses" [] ∅
      (inl (expenses rentOnly))
    = (expenses rentOnly, store', [])
    /\ store' !! "expenses" = Some "001"
    /\ useLocalStorage (browser countingCodec store') "expenses" []
       = (Returns (expenses rentOnly), []).
Proof.
  apply (setValue_then_read _ countingCodec (fun _ _ => true) "expenses" [] []
           ∅ (inl (expenses rentOnly)) "001");
    [vm_compute; reflexivity | discriminate | vm_compute; reflexivity
    | reflexivity].
Defined.

(** X16.  A write that fails is caught: when [JSON.stringify] throws or the
    browser refuses the write, [setValue] still makes the new value the
    stored value of the hook, leaves the store as it was and logs the
    error.  In every case [setValue] touches no key but its own. *)
Theorem setValue_failure_and_frame (A : Type) (c : Codec A)
    (fits : string -> string -> bool) (key : string) (storedValue : A)
    (store : gmap string string) (value : A + (A -> A)) :
  let v := match value with inl v => v | inr f => f storedValue end in
  let result := setValue c fits key storedValue store value in
  fst (fst result) = v
  /\ (forall other, other <> key -> snd (fst result) !! other = store !! other)
  /\ (forall error, stringify c v = Throws error ->
        result = (v, store, [error]))
  /\ (forall text, stringify c v = Returns text -> fits key text = false ->
        result = (v, store, ["QuotaExceededError"]))
  /\ (snd result = [] ->
      exists text, stringify c v = Returns text
                   /\ snd (fst result) = <[key := text]> store).
Proof.
  intros v result. subst result. unfold setValue, setItem, bind. fold v.
  destruct (stringify c v) as [text|error] eqn:Hs.
  - destruct (fits key text) eqn:Hf; simpl.
    + split; [reflexivity|]. split.
      { intros other Hne. apply lookup_insert_ne. congruence. }
      split; [discriminate|]. split; [intros t [= <-]; congruence|]. eauto.
    + split; [reflexivity|]. split; [reflexivity|].
      split; [discriminate|]. split; [reflexivity|]. discriminate.
  - simpl. split; [reflexivity|]. split; [reflexivity|].
    split; [intros e [= <-]; reflexivity|]. split; discriminate.
Qed.

Lemma browser_absent (A : Type) (c : Codec A) (store : gmap string string)
    (key : string) :
  store !! key = None -> absent (browser c store) key.
Proof. unfold absent, browser. simpl. intros ->. reflexivity. Qed.

(** X17.  Loading restores a persisted budget table but never a persisted
    ledger: with both blobs stored and readable, the loaded state has the
    stored budgets and an empty ledger, because the reducer has no case
    for the INIT action that carries the stored transactions. *)
Theorem load_restores_budgets_only (host : DateHost)
    (ce : Codec (list expense)) (cb : Codec (gmap string JS.number))
    (store : gmap string string) (today : Z)
    (ledgerText tableText : string) (ledger : list expense)
    (table : gmap string JS.number) :
  store !! "expenses" = Some ledgerText -> ledgerText <> "" ->
  parse ce ledgerText = Returns ledger ->
  store !! "budgets" = Some tableText -> tableText <> "" ->
  parse cb tableText = Returns table ->
  savedExpenses (browser ce store) = Returns ledger
  /\ exists st,
       load host (browser ce store) (browser cb store) today = Returns st
       /\ budgets st = table
       /\ expenses st = []
       /\ isLoading st = false.
Proof.
  intros He Hne Hpe Hb Hnb Hpb.
  apply truthy_string_spec in Hne. apply truthy_string_spec in Hnb.
  assert (Hse : savedExpenses (browser ce store) = Returns ledger).
  { unfold savedExpenses, useLocalStorage, browser, bind, try_catch. simpl.
    rewrite He, Hne, Hpe. reflexivity. }
  split; [exact Hse|].
  unfold load, bind. rewrite Hse.
  unfold savedBudgets, useLocalStorage, browser, bind, try_catch. simpl.
  rewrite Hb, Hnb, Hpb. eexists. repeat split.
Qed.

Lemma load_restores_budgets_only_witness :
  let store : gmap string string :=
    <["expenses" := "003"]> (<["budgets" := "frugal"]> ∅) in
  exists ledger st,
    savedExpenses (browser countingCodec store) = Returns ledger
    /\ length ledger = 3%nat
    /\ load utcHost (browser countingCodec store) (browser twoTables store)
         march2024 = Returns st
    /\ budgets st !! "food" = Some (JS.of_Z 50)
    /\ expenses st = [].
Proof.
  cbv zeta.
  match goal with |- context [browser countingCodec ?store] =>
    assert (Hne : "003" <> "") by discriminate;
    assert (Hnb : "frugal" <> "") by discriminate;
    assert (Hpe : parse countingCodec "003"
                  = Returns (List.repeat
                               (newExpenseObj utcHost
                                  (setCategory (setAmount (setDescription (initialState utcHost march2024) "Rent") "800")
                                     "housing")
                                  march2024 march2024) 3))
      by (vm_compute; reflexivity);
    assert (Hpb : parse twoTables "frugal"
                  = Returns (<["food" := JS.of_Z 50]> defaultBudgets))
      by (vm_compute; reflexivity);
    assert (H1 : store !! "expenses" = Some "003") by (vm_compute; reflexivity);
    assert (H2 : store !! "budgets" = Some "frugal") by (vm_compute; reflexivity);
    destruct (load_restores_budgets_only utcHost countingCodec twoTables store
                march2024 "003" "frugal" _ _ H1 Hne Hpe H2 Hnb Hpb)
      as (Hs & st & Hl & Hb & He & _)
  end.
  eexists _, st. split; [exact Hs|]. split; [reflexivity|].
  split; [exact Hl|]. split; [rewrite Hb; vm_compute; reflexivity | exact He].
Defined.

(** X18.  The stored ledger does not survive a load.  While the component
    is loading the persist effect writes nothing; once it has loaded, the
    effect hands the (empty) ledger to the hook, and when the browser takes
    the write the [expenses] entry of the store is the text of the empty
    list, whatever it held before. *)
Theorem load_then_persist_empties_ledger (host : DateHost)
    (ce : Codec (list expense)) (cb : Codec (gmap string JS.number))
    (fits : string -> string -> bool) (store : gmap string string)
    (today : Z) (emptyText : string) :
  stringify ce [] = Returns emptyText ->
  fits "expenses" emptyText = true ->
  (forall saved, persistExpenses ce fits (initialState host today) saved store
                 = (saved, store, []))
  /\ exists st,
       load host (browser ce store) (browser cb store) today = Returns st
       /\ forall saved,
            persistExpenses ce fits st saved store
            = ([], <["expenses" := emptyText]> store, []).
Proof.
  intros Hs Hf. split; [reflexivity|].
  destruct (useLocalStorage_returns (browser ce store) "expenses" []) as [se Hse].
  destruct (useLocalStorage_returns (browser cb store) "budgets"
              (budgets (initialState host today))) as [sb Hsb].
  unfold load, bind, savedExpenses, savedBudgets. rewrite Hse, Hsb.
  eexists. split; [reflexivity|].
  intros saved. unfold persistExpenses, setValue, setItem, bind. simpl.
  rewrite Hs, Hf. reflexivity.
Qed.

Lemma load_then_persist_empties_ledger_witness :
  let store : gmap string string := <["expenses" := "003"]> ∅ in
  exists st,
    load utcHost (browser countingCodec store) (browser twoTables store)
      march2024 = Returns st
    /\ snd (fst (persistExpenses countingCodec (fun _ _ => true) st
                   (List.repeat (newExpenseObj utcHost (initialState utcHost march2024)
                                   march2024 march2024) 3)
                   store)) !! "expenses"
       = Some "000".
Proof.
  cbv zeta.
  match goal with |- context [browser countingCodec ?store] =>
    destruct (load_then_persist_empties_ledger utcHost countingCodec twoTables
                (fun _ _ => true) store march2024 "000" eq_refl eq_refl)
      as (_ & st & Hl & Hp)
  end.
  exists st. split; [exact Hl|]. rewrite Hp. reflexivity.
Defined.

(** ** The bar and the list shown *)

Lemma compare_numbers (x y : JS.number) :
  JS.isNaN x = false -> JS.isNaN y = false ->
  JS.lt x y = false -> JS.lt y x = false -> JS.le x y = true.
Proof.
  unfold JS.lt, JS.le, SFltb, SFleb. intros Hx Hy.
  rewrite (SFcompare_antisym x y).
  destruct (SFcompare x y) as [[]|] eqn:E; simpl; try congruence.
  destruct (SFcompare_None _ _ E); congruence.
Qed.

(** X19.  The bar is never drawn wider than 100 percent: its width is the
    percentage itself up to 100 and exactly 100 once the category is over
    budget; a percentage that is NaN gives a width that is NaN. *)
Theorem bar_width_capped (p : JS.number) :
  (JS.isNaN p = true -> barWidth p = JS.NaN)
  /\ (barStatus p = OverBudget -> barWidth p = JS.of_Z 100)
  /\ (JS.isNaN p = false -> barStatus p <> OverBudget -> barWidth p = p)
  /\ (JS.isNaN p = false -> JS.le (barWidth p) (JS.of_Z 100) = true).
Proof.
  assert (H100 : JS.isNaN (JS.of_Z 100) = false) by reflexivity.
  assert (Hover : barStatus p = OverBudget <-> JS.lt (JS.of_Z 100) p = true).
  { unfold barStatus, JS.gt, JS.lt. destruct (SFltb (JS.of_Z 100) p);
      [tauto|]. destruct (SFltb (JS.of_Z 75) p); split; discriminate. }
  unfold barWidth, Math_min. rewrite H100, orb_false_r.
  destruct (JS.isNaN p) eqn:Hn.
  - split; [reflexivity|]. split; [|split; discriminate].
    intros H. apply Hover in H. destruct p; discriminate.
  - split; [discriminate|].
    destruct (JS.lt p (JS.of_Z 100)) eqn:Hlt.
    + assert (Hgt : JS.lt (JS.of_Z 100) p = false).
      { pose proof (lt_not_strict_eq _ _ Hlt) as _.
        unfold JS.lt, SFltb in *. rewrite (SFcompare_antisym p (JS.of_Z 100)).
        destruct (SFcompare p (JS.of_Z 100)) as [[]|]; simpl; congruence. }
      split; [intros H; apply Hover in H; congruence|].
      split; [reflexivity|]. intros _.
      unfold JS.lt, JS.le, SFltb, SFleb in *.
      destruct (SFcompare p (JS.of_Z 100)) as [[]|]; congruence.
    + destruct (JS.lt (JS.of_Z 100) p) eqn:Hgt.
      * split; [reflexivity|]. split; [|reflexivity].
        intros _ H. exfalso. apply H, Hover. reflexivity.
      * assert (Hres : match p, JS.of_Z 100 with
                       | S754_zero true, _ => p
                       | _, S754_zero true => JS.of_Z 100
                       | _, _ => p
                       end = p)
          by (destruct p as [[]|[]| |[] m e]; reflexivity).
        rewrite Hres.
        split; [intros H; apply Hover in H; congruence|].
        split; [reflexivity|]. intros _.
        apply compare_numbers; assumption.
Qed.

Section Shown.

Variable host : DateHost.

Lemma insertSorted_perm (cmp : expense -> expense -> JS.number)
    (x : expense) (l : list expense) :
  Permutation (insertSorted cmp x l) (x :: l).
Proof.
  induction l as [|y l IH]; simpl; [reflexivity|].
  destruct (JS.gt (cmp y x) JS.zero); [reflexivity|].
  rewrite IH. apply perm_swap.
Qed.

Lemma sortBy_perm (cmp : expense -> expense -> JS.number) (l : list expense) :
  Permutation (sortBy cmp l) l.
Proof.
  unfold sortBy.
  assert (H : forall acc,
             Permutation (fold_left (fun s x => insertSorted cmp x s) l acc)
               (acc ++ l)).
  { induction l as [|x l IH]; intros acc; simpl.
    - rewrite app_nil_r. reflexivity.
    - rewrite IH, insertSorted_perm.
      change (x :: acc ++ l) with ((x :: acc) ++ l).
      rewrite (Permutation_middle acc l x). reflexivity. }
  apply (H []).
Qed.

Lemma gt_zero_of_Z (z : Z) :
  JS.safe z -> JS.gt (JS.of_Z z) JS.zero = (0 <? z).
Proof.
  intros Hz. destruct z as [|p|p]; [reflexivity| |].
  - rewrite Exact.of_Z_pos by assumption. reflexivity.
  - rewrite Exact.of_Z_neg by assumption. reflexivity.
Qed.

(** On readable dates the comparator says "swap" exactly when the second
    transaction is the newer one. *)
Lemma byDateDescending_swaps (y x : expense) (ty tx : Z) :
  parseDate host (Expense.date y) = Some ty -> - 2 ^ 52 < ty < 2 ^ 52 ->
  parseDate host (Expense.date x) = Some tx -> - 2 ^ 52 < tx < 2 ^ 52 ->
  JS.gt (byDateDescending host y x) JS.zero = (ty <? tx).
Proof.
  intros Hy Ry Hx Rx. unfold byDateDescending, timeValue. rewrite Hy, Hx.
  unfold JS.sub. rewrite Exact.sub_of_Z by (unfold JS.safe; lia).
  rewrite gt_zero_of_Z by (unfold JS.safe; lia).
  destruct (Z.ltb_spec ty tx), (Z.ltb_spec 0 (tx - ty)); try reflexivity; lia.
Qed.

Lemma insertSorted_sorted (x : expense) (l : list expense) :
  readableDate host x -> Forall (readableDate host) l ->
  StronglySorted (notOlder host) l ->
  StronglySorted (notOlder host) (insertSorted (byDateDescending host) x l).
Proof.
  intros (tx & Hx & Rx) Hl Hs.
  induction Hs as [|y l Hs IH Hy]; simpl.
  - repeat constructor.
  - apply Forall_cons in Hl as [(ty & Hty & Ry) Hl].
    rewrite (byDateDescending_swaps y x ty tx) by assumption.
    destruct (Z.ltb_spec ty tx) as [Hlt|Hge].
    + constructor; [constructor; assumption|].
      constructor.
      * exists tx, ty. repeat split; try assumption. lia.
      * eapply Forall_impl; [exact Hy|].
        intros z (ty' & tz & Hty' & Htz & Hle).
        exists tx, tz. repeat split; try assumption.
        rewrite Hty in Hty'. injection Hty' as <-. lia.
    + constructor; [apply IH; exact Hl|].
      eapply Permutation_Forall; [symmetry; apply insertSorted_perm|].
      constructor; [|exact Hy].
      exists ty, tx. repeat split; assumption || lia.
Qed.

Lemma sortBy_sorted (l : list expense) :
  Forall (readableDate host) l ->
  StronglySorted (notOlder host) (sortBy (byDateDescending host) l).
Proof.
  unfold sortBy. intros Hl.
  assert (H : forall acc, Forall (readableDate host) acc ->
             StronglySorted (notOlder host) acc ->
             StronglySorted (notOlder host)
               (fold_left (fun s x => insertSorted (byDateDescending host) x s)
                  l acc)).
  { induction Hl as [|x l Hx Hl IH]; intros acc Hacc Hs; simpl; [exact Hs|].
    apply IH.
    - eapply Permutation_Forall; [symmetry; apply insertSorted_perm|].
      constructor; assumption.
    - apply insertSorted_sorted; assumption. }
  apply H; constructor.
Qed.

(** X20.  The list shown holds exactly the transactions of the selected
    month, each as often as the ledger has it, and, when their dates are
    readable, the newest first: no transaction stands above a newer one. *)
Theorem displayed_newest_first (st : State) :
  Permutation (displayedExpenses host st) (currentMonthExpenses host st)
  /\ (forall e, In e (displayedExpenses host st)
                <-> In e (expenses st) /\ inSelectedMonth host st e = true)
  /\ (Forall (readableDate host) (currentMonthExpenses host st) ->
      StronglySorted (notOlder host) (displayedExpenses host st)).
Proof.
  unfold displayedExpenses. split; [apply sortBy_perm|]. split.
  - intros e. unfold currentMonthExpenses. rewrite <- filter_In.
    split; apply Permutation_in;
      [apply sortBy_perm | symmetry; apply sortBy_perm].
  - apply sortBy_sorted.
Qed.

End Shown.

Lemma displayed_newest_first_witness :
  exists groceries salary,
    displayedExpenses utcHost incomeAndExpense = [groceries; salary]
    /\ expenses incomeAndExpense = [salary; groceries]
    /\ StronglySorted (notOlder utcHost) (displayedExpenses utcHost incomeAndExpense).
Proof.
  eexists _, _. split; [vm_compute; reflexivity|].
  split; [vm_compute; reflexivity|].
  apply displayed_newest_first.
  assert (Hb : forallb
                 (fun e => match UTC.parseDate (Expense.date e) with
                           | Some t => (- 2 ^ 52 <? t) && (t <? 2 ^ 52)
                           | None => false
                           end)
                 (currentMonthExpenses utcHost incomeAndExpense) = true)
    by (vm_compute; reflexivity).
  apply List.Forall_forall. intros e He.
  pose proof (proj1 (forallb_forall _ _) Hb e He) as H. clear Hb He.
  cbv beta in H. unfold readableDate. change (parseDate utcHost) with UTC.parseDate.
  destruct (UTC.parseDate (Expense.date e)) as [t|]; [|discriminate].
  exists t. apply andb_true_iff in H as [H1 H2].
  apply Z.ltb_lt in H1, H2. auto.
Defined.

(** ** The button of the form *)

Lemma spread_keeps_id (host : DateHost) (st : State) (today : Z) (e : expense) :
  Expense.id (Expense.spread e (formUpdates host st today)) = Expense.id e.
Proof. reflexivity. Qed.

(** X21.  In edit mode the button never adds or removes a transaction and
    never changes an id; outside edit mode it never touches a transaction
    already in the ledger and adds at most one.  After Cancel the button
    does nothing until a description is typed, and Cancel itself leaves the
    ledger alone. *)
Theorem submit_modes (host : DateHost) (st : State) (now today : Z) :
  (forall eid, editingExpenseId st = Some eid -> JS.truthy_number eid = true ->
     List.map Expense.id (expenses (submit host st now today))
     = List.map Expense.id (expenses st))
  /\ (editingExpenseId st = None ->
      exists added,
        expenses (submit host st now today) = (expenses st ++ added)%list
        /\ (length added <= 1)%nat)
  /\ submit host (cancel st) now today = cancel st
  /\ expenses (cancel st) = expenses st
  /\ editingExpenseId (cancel st) = None.
Proof.
  split; [|split; [|repeat split]].
  - intros eid He Ht. unfold submit. rewrite He, Ht.
    unfold updateExpense. rewrite He.
    destruct (formIsValid st && JS.truthy_number eid); [|reflexivity].
    simpl. rewrite List.map_map. apply List.map_ext. intros e.
    destruct (JS.strict_eq (Expense.id e) eid); reflexivity.
  - intros He. unfold submit. rewrite He.
    destruct (formIsValid st) eqn:E.
    + exists [newExpenseObj host st now today].
      split; [apply handleAddExpense_valid; exact E | simpl; lia].
    + exists []. rewrite (handleAddExpense_invalid host st now today E).
      split; [symmetry; apply app_nil_r | simpl; lia].
Qed.

Lemma submit_modes_witness :
  List.map Expense.id (expenses (submit utcHost editingRent (march2024 + 9) (march2024 + 9)))
  = [JS.of_Z march2024]
  /\ exists added,
       expenses (submit utcHost (setAmount (setDescription rentOnly "Food") "12")
                   (march2024 + 9) (march2024 + 9))
       = (expenses rentOnly ++ added)%list
       /\ (length added <= 1)%nat.
Proof.
  destruct (submit_modes utcHost editingRent (march2024 + 9) (march2024 + 9))
    as (He & _).
  destruct (submit_modes utcHost (setAmount (setDescription rentOnly "Food") "12")
              (march2024 + 9) (march2024 + 9)) as (_ & Ha & _).
  split.
  - rewrite (He (JS.of_Z march2024)); [vm_compute; reflexivity | | ];
      vm_compute; reflexivity.
  - apply Ha. vm_compute. reflexivity.
Defined.

(** ** Blank descriptions *)

Lemma trimStart_blank (s : string) :
  JS.trimStart s = "" <-> blank s = true.
Proof.
  induction s as [|c s IH]; simpl; [tauto|].
  destruct (JS.isWhiteSpace c); simpl; [exact IH|]. split; discriminate.
Qed.

Lemma trimEnd_blank (s : string) : JS.trimEnd s = "" <-> blank s = true.
Proof.
  induction s as [|c s IH]; simpl; [tauto|].
  destruct (JS.trimEnd s) as [|c' t] eqn:E.
  - destruct (JS.isWhiteSpace c); simpl; [tauto|]. split; discriminate.
  - split; [discriminate|]. intros H. apply andb_true_iff in H as [_ H].
    apply IH in H. discriminate.
Qed.

Lemma trimStart_not_blank (s : string) :
  JS.trimStart s <> "" -> blank (JS.trimStart s) = false.
Proof.
  induction s as [|c s IH]; simpl; [congruence|].
  destruct (JS.isWhiteSpace c) eqn:E; [exact IH|].
  intros _. simpl. rewrite E. reflexivity.
Qed.

Lemma trim_blank (s : string) : JS.trim s = "" <-> blank s = true.
Proof.
  unfold JS.trim. rewrite trimEnd_blank. split.
  - intros H. apply trimStart_blank.
    destruct (JS.trimStart s) as [|c t] eqn:E; [reflexivity|].
    assert (Hne : JS.trimStart s <> "") by (rewrite E; discriminate).
    apply trimStart_not_blank in Hne. rewrite E in Hne. congruence.
  - intros H. apply trimStart_blank in H. rewrite H. reflexivity.
Qed.

Lemma visible_not_whiteSpace (c : ascii) :
  visible c = true -> JS.isWhiteSpace c = false.
Proof.
  unfold visible, JS.isWhiteSpace. intros H.
  apply andb_true_iff in H as [H1 H2]. apply Z.leb_le in H1, H2.
  repeat (apply orb_false_iff; split); apply Z.eqb_neq; lia.
Qed.

Lemma hasVisible_not_blank (s : string) :
  hasVisible s = true -> blank s = false.
Proof.
  induction s as [|c s IH]; simpl; [discriminate|].
  intros H. apply orb_true_iff in H as [H|H].
  - rewrite (visible_not_whiteSpace c H). reflexivity.
  - rewrite (IH H). apply andb_false_r.
Qed.

(** X22.  A description made only of the white-space characters TAB, LF,
    VT, FF, CR, SP and NBSP (the empty description among them) is rejected
    by both handlers, whatever the amount: the state stays as it is.  A
    description that contains a printable ASCII character is accepted as
    soon as the amount parses, and it is stored as typed, blanks around it
    included.  (White space beyond U+00FF is outside the strings of this
    development and outside this statement.) *)
Theorem blank_description_rejected (host : DateHost) (st : State)
    (now today : Z) :
  (blank (description st) = true ->
   handleAddExpense host st now today = st
   /\ updateExpense host st today = st)
  /\ (hasVisible (description st) = true ->
      JS.isNaN (JS.parseFloat (amount st)) = false ->
      exists new,
        expenses (handleAddExpense host st now today)
        = (expenses st ++ [new])%list
        /\ Expense.description new = description st).
Proof.
  split.
  - intros Hb. apply trim_blank in Hb.
    assert (Hv : formIsValid st = false).
    { destruct (formIsValid st) eqn:E; [|reflexivity].
      apply formIsValid_spec in E as [E _]. congruence. }
    split; [apply handleAddExpense_invalid | apply updateExpense_invalid];
      exact Hv.
  - intros Hb Hn. apply hasVisible_not_blank in Hb.
    assert (Hv : formIsValid st = true).
    { apply formIsValid_spec. split; [|exact Hn].
      intros H. apply trim_blank in H. congruence. }
    exists (newExpenseObj host st now today).
    split; [apply handleAddExpense_valid; exact Hv | reflexivity].
Qed.

Lemma blank_description_rejected_witness :
  let blanks := String (ascii_of_nat 9) "  " in
  handleAddExpense utcHost (setAmount (setDescription rentOnly blanks) "12")
    march2024 march2024
  = setAmount (setDescription rentOnly blanks) "12"
  /\ exists new,
       expenses (handleAddExpense utcHost
                   (setAmount (setDescription rentOnly " Tea ") "12")
                   (march2024 + 1) (march2024 + 1))
       = (expenses rentOnly ++ [new])%list
       /\ Expense.description new = " Tea ".
Proof.
  cbv zeta. split.
  - match goal with |- handleAddExpense _ ?st ?n ?t = _ =>
      destruct (blank_description_rejected utcHost st n t) as [H _]
    end.
    apply H. reflexivity.
  - match goal with |- context [handleAddExpense _ ?st ?n ?t] =>
      destruct (blank_description_rejected utcHost st n t) as [_ H]
    end.
    apply H; reflexivity.
Defined.
